(** * Qur'an Planner: the planning / tracking engine of [src/app/page.tsx]

    A shallow embedding of the calculation engine and of the persisted
    state model of the [Page] component, followed by the properties the
    specification states about them.

    Conventions of the embedding.
    - A JavaScript [number] is [NaN], an infinity, or a finite value kept
      as a rational (every double is one). Comparisons, [Math.min],
      [Math.max], [Math.round] and the clamps are exact; the result of
      [*], [/], [+] and [-] is the exact result rounded to the nearest
      binary64 number, ties to even, with overflow to an infinity
      ([Binary64.round]). The two zeros are identified.
    - A value that comes back from [JSON.parse] is untyped ([value]); the
      fields of the component state that such a value can reach keep the
      type [value], and the code's own [Number(...)] coercions are kept.
    - [JSON.parse], [JSON.stringify], the string-to-number and
      number-to-string conversions belong to the host: they are the fields
      of the class [Host].
    - [localStorage] is a finite map from keys to strings; reading and
      writing it always succeed.
    - An event handler is a function on the component state (and on the
      storage when it writes to it); [Date.now()] is an argument. *)

From Stdlib Require Import QArith Qround Qabs Lqa Lia.
From stdpp Require Import base option list strings gmap.

Local Open Scope Q_scope.

(** ** JavaScript numbers *)

Inductive number : Type :=
| NaN
| NegInf
| Fin (q : Q)
| PosInf.

(** ** Rounding to binary64 *)

Module Binary64.

(** [floor (log2 x)] for a positive rational [x]. *)
Definition ilog2 (x : Q) : Z :=
  if Qle_bool 1 x then Z.log2 (Qfloor x)
  else (- Z.log2_up (Qceiling (/ x)))%Z.

(** The exponent of the last bit of the double nearest to [x]: 52 bits
    below the leading one, and never below that of the subnormals. *)
Definition exponent (x : Q) : Z := Z.max (-1074) (ilog2 (Qabs x) - 52).

(** The nearest integer, a half going to the even one. *)
Definition rne (y : Q) : Z :=
  let f := Qfloor y in
  match Qcompare (y - inject_Z f) (1 # 2) with
  | Lt => f
  | Gt => (f + 1)%Z
  | Eq => if Z.even f then f else (f + 1)%Z
  end.

(** From [2 ^ 1024] on, a rounded magnitude is an infinity. *)
Definition overflow : Q := inject_Z (2 ^ 1024).

(** The double nearest to [x], ties to even. *)
Definition round (x : Q) : number :=
  if Qeq_bool x 0 then Fin 0
  else
    let e := exponent x in
    let r :=
      if (0 <=? e)%Z
      then inject_Z (rne (x / inject_Z (2 ^ e)) * 2 ^ e)
      else inject_Z (rne (x * inject_Z (2 ^ (- e)))) / inject_Z (2 ^ (- e)) in
    if Qle_bool overflow (Qabs r)
    then (if Qle_bool 0 x then PosInf else NegInf)
    else Fin (Qred r).

End Binary64.

Module Num.

Definition isNaN (n : number) : bool :=
  match n with NaN => true | _ => false end.

(** [a <= b] on numbers, [false] as soon as one side is [NaN]. *)
Definition leb (a b : number) : bool :=
  match a, b with
  | NaN, _ | _, NaN => false
  | NegInf, _ => true
  | _, PosInf => true
  | Fin x, Fin y => Qle_bool x y
  | _, _ => false
  end.

(** [a < b] on numbers. *)
Definition ltb (a b : number) : bool :=
  match a, b with
  | NaN, _ | _, NaN => false
  | NegInf, NegInf => false
  | NegInf, _ => true
  | PosInf, _ => false
  | Fin x, Fin y => negb (Qle_bool y x)
  | Fin _, PosInf => true
  | Fin _, NegInf => false
  end.

Definition geb (a b : number) : bool := leb b a.
Definition gtb (a b : number) : bool := ltb b a.

(** [a === b] on numbers: [NaN] equals nothing. *)
Definition eqb (a b : number) : bool :=
  match a, b with
  | NegInf, NegInf | PosInf, PosInf => true
  | Fin x, Fin y => Qeq_bool x y
  | _, _ => false
  end.

(** [Math.max(a, b)] and [Math.min(a, b)]: [NaN] when an argument is. *)
Definition max (a b : number) : number :=
  match a, b with
  | NaN, _ | _, NaN => NaN
  | _, _ => if leb a b then b else a
  end.

Definition min (a b : number) : number :=
  match a, b with
  | NaN, _ | _, NaN => NaN
  | _, _ => if leb a b then a else b
  end.

Definition neg (a : number) : number :=
  match a with
  | NaN => NaN
  | NegInf => PosInf
  | PosInf => NegInf
  | Fin x => Fin (- x)
  end.

Definition add (a b : number) : number :=
  match a, b with
  | NaN, _ | _, NaN => NaN
  | PosInf, NegInf | NegInf, PosInf => NaN
  | PosInf, _ | _, PosInf => PosInf
  | NegInf, _ | _, NegInf => NegInf
  | Fin x, Fin y => Binary64.round (x + y)
  end.

Definition sub (a b : number) : number :=
  match a, b with
  | Fin x, Fin y => Binary64.round (x - y)
  | _, _ => add a (neg b)
  end.

(** The infinity whose sign is the sign of [x], [NaN] for zero. *)
Definition inf_signed (x : Q) : number :=
  match Qcompare x 0 with
  | Gt => PosInf
  | Lt => NegInf
  | Eq => NaN
  end.

Definition mul (a b : number) : number :=
  match a, b with
  | NaN, _ | _, NaN => NaN
  | Fin x, Fin y => Binary64.round (x * y)
  | PosInf, PosInf | NegInf, NegInf => PosInf
  | PosInf, NegInf | NegInf, PosInf => NegInf
  | PosInf, Fin y | Fin y, PosInf => inf_signed y
  | NegInf, Fin y | Fin y, NegInf => inf_signed (- y)
  end.

(** [a / b]. A finite value over zero is the infinity of its sign
    ([0 / 0] is [NaN]); an infinity over a finite value keeps or flips
    its sign; a finite value over an infinity is zero. The four
    operations round their finite results to binary64. *)
Definition div (a b : number) : number :=
  match a, b with
  | NaN, _ | _, NaN => NaN
  | Fin x, Fin y =>
      if Qeq_bool y 0 then inf_signed x else Binary64.round (x / y)
  | Fin _, _ => Fin 0
  | PosInf, Fin y => if Qle_bool 0 y then PosInf else NegInf
  | NegInf, Fin y => if Qle_bool 0 y then NegInf else PosInf
  | _, _ => NaN
  end.

(** [Math.round(a)]: the integer nearest to [a], halves upwards. *)
Definition round (a : number) : number :=
  match a with
  | Fin x => Fin (inject_Z (Qfloor (x + (1 # 2))))
  | _ => a
  end.

End Num.

Declare Scope num_scope.
Delimit Scope num_scope with num.
Bind Scope num_scope with number.
Infix "*" := Num.mul : num_scope.
Infix "/" := Num.div : num_scope.
Infix "+" := Num.add : num_scope.
Infix "-" := Num.sub : num_scope.
Infix ">=?" := Num.geb (at level 70) : num_scope.
Infix ">?" := Num.gtb (at level 70) : num_scope.
Infix "===" := Num.eqb (at level 70) : num_scope.

(** ** Module-level constants and helpers of [page.tsx] *)

Definition QURAN_PAGES : number := Fin 604.

(** [clamp(n, min, max)]: [min] for [NaN], else
    [Math.min(max, Math.max(min, n))]. *)
Definition clamp (n min max : number) : number :=
  if Num.isNaN n then min
  else Num.min max (Num.max min n).

(** [roundSmart(n) = Math.max(0, Math.round(n))]. *)
Definition roundSmart (n : number) : number :=
  Num.max (Fin 0) (Num.round n).

(** ** Untyped values, exceptions and the host *)

(** What [JSON.parse] can return, and [undefined] for a property that is
    not there. An object is the list of its own properties. *)
#[warnings="-register-all"]
Inductive value : Type :=
| VUndefined
| VNull
| VBool (b : bool)
| VNum (n : number)
| VStr (s : string)
| VArr (items : list value)
| VObj (fields : list (string * value)).

Inductive exn : Type := SyntaxError | TypeError.

(** A computation that returns or throws. *)
Inductive result (A : Type) : Type :=
| Ok (a : A)
| Throw (e : exn).
Arguments Ok {A} a.
Arguments Throw {A} e.

#[global] Instance result_ret : MRet result := fun _ a => Ok a.
#[global] Instance result_bind : MBind result := fun _ _ f m =>
  match m with
  | Ok a => f a
  | Throw e => Throw e
  end.

(** [try { m } catch { h }]. *)
Definition try_catch {A} (m : result A) (h : result A) : result A :=
  match m with
  | Ok a => Ok a
  | Throw _ => h
  end.

(** The functions of the JavaScript host that the component calls.
    [JSON_parse] throws a [SyntaxError] on a text that is not JSON;
    [StringToNumber] is [Number(s)] on a string, [ObjectToNumber] is
    [Number(v)] on an array or an object, [NumberToString] is [String(n)]. *)
Class Host : Type := {
  JSON_parse : string -> result value;
  JSON_stringify : value -> string;
  StringToNumber : string -> number;
  ObjectToNumber : value -> number;
  NumberToString : number -> string;
}.

Module JS.

(** [Boolean(v)]. *)
Definition truthy (v : value) : bool :=
  match v with
  | VUndefined | VNull => false
  | VBool b => b
  | VNum NaN => false
  | VNum (Fin q) => negb (Qeq_bool q 0)
  | VNum _ => true
  | VStr s => negb (String.eqb s EmptyString)
  | VArr _ | VObj _ => true
  end.

(** [a ?? b]. *)
Definition nullish (v : value) : bool :=
  match v with
  | VUndefined | VNull => true
  | _ => false
  end.

Definition coalesce (a b : value) : value :=
  if nullish a then b else a.

Fixpoint assoc (k : string) (fs : list (string * value)) : value :=
  match fs with
  | [] => VUndefined
  | (k', v) :: fs => if String.eqb k k' then v else assoc k fs
  end.

(** [v.k], for a name [k] that no prototype defines (the five names the
    component reads are such): a [TypeError] on [null] and [undefined],
    the own property of an object, [undefined] otherwise. *)
Definition get_prop (v : value) (k : string) : result value :=
  match v with
  | VUndefined | VNull => Throw TypeError
  | VObj fs => Ok (assoc k fs)
  | _ => Ok VUndefined
  end.

(** [v === n] for a number literal [n]. *)
Definition strict_eq_num (v : value) (n : number) : bool :=
  match v with
  | VNum m => Num.eqb m n
  | _ => false
  end.

(** [v === s] for a string literal [s]. *)
Definition strict_eq_str (v : value) (s : string) : bool :=
  match v with
  | VStr t => String.eqb t s
  | _ => false
  end.

(** A [string | null] as a value. *)
Definition of_nullable (o : option string) : value :=
  match o with
  | Some s => VStr s
  | None => VNull
  end.

(** [Number(v)]. *)
Definition Number `{!Host} (v : value) : number :=
  match v with
  | VUndefined => NaN
  | VNull => Fin 0
  | VBool true => Fin 1
  | VBool false => Fin 0
  | VNum n => n
  | VStr s => StringToNumber s
  | VArr _ | VObj _ => ObjectToNumber v
  end.

End JS.

(** ** The component state *)

Inductive Theme : Type := light | dark.
Inductive Tab : Type := tab_plan | tab_track.

(** [GoalPreset = 1 | 2 | 3 | "custom"], [DaysPreset = 30 | 29 | "custom"],
    [SessionsPreset = 1 | 2 | 3 | 5]. *)
Inductive GoalPreset : Type := goal_1 | goal_2 | goal_3 | goal_custom.
Inductive DaysPreset : Type := days_30 | days_29 | days_custom.
Inductive SessionsPreset : Type := sessions_1 | sessions_2 | sessions_3 | sessions_5.
Inductive TrackMode : Type := onPage | readPages.

Definition SessionsPreset_value (s : SessionsPreset) : value :=
  match s with
  | sessions_1 => VNum (Fin 1)
  | sessions_2 => VNum (Fin 2)
  | sessions_3 => VNum (Fin 3)
  | sessions_5 => VNum (Fin 5)
  end.

(** The saved plan. Its fields are typed [number] and [SessionsPreset] in
    the source, but a plan restored from storage carries whatever
    [JSON.parse] returned for them. *)
Record Plan : Type := {
  goalKhatmah : value;
  daysTotal : value;
  sessionsPerDay : value;
}.

Record ProgressState : Type := {
  pagesCompleted : number;
  lastUpdatedAt : value;
}.

Record HistoryItem : Type := {
  at_ : number;
  label : string;
  item_pagesCompleted : number;
}.

(** The object literal [{ at, label, pagesCompleted }]. *)
Definition HistoryItem_value (h : HistoryItem) : value :=
  VObj [("at", VNum (at_ h)); ("label", VStr (label h));
        ("pagesCompleted", VNum (item_pagesCompleted h))]%string.

Definition Plan_value (p : Plan) : value :=
  VObj [("goalKhatmah", goalKhatmah p); ("daysTotal", daysTotal p);
        ("sessionsPerDay", sessionsPerDay p)]%string.

Definition ProgressState_value (p : ProgressState) : value :=
  VObj [("pagesCompleted", VNum (pagesCompleted p));
        ("lastUpdatedAt", lastUpdatedAt p)]%string.

(** One field per [useState] of [Page]. [customGoal], [customDays] and
    [sessions] receive fields of a restored plan, and [history] a restored
    array: they are kept untyped. *)
Record State : Type := {
  theme : Theme;
  tab : Tab;
  goalPreset : GoalPreset;
  customGoal : value;
  daysPreset : DaysPreset;
  customDays : value;
  sessions : value;
  plan : option Plan;
  planSavedToast : string;
  trackMode : TrackMode;
  inputPage : number;
  inputReadPages : number;
  ramadanDay : number;
  progress : ProgressState;
  history : list value;
}.

(** The initial values of the [useState] calls. *)
Definition initial_state : State := {|
  theme := light;
  tab := tab_plan;
  goalPreset := goal_1;
  customGoal := VNum (Fin 1);
  daysPreset := days_30;
  customDays := VNum (Fin 30);
  sessions := VNum (Fin 2);
  plan := None;
  planSavedToast := EmptyString;
  trackMode := onPage;
  inputPage := Fin 1;
  inputReadPages := Fin 0;
  ramadanDay := Fin 1;
  progress := {| pagesCompleted := Fin 0; lastUpdatedAt := VNull |};
  history := [];
|}.

(** The state setters. *)
Definition setTheme (v : Theme) (st : State) : State :=
  Build_State v (tab st) (goalPreset st) (customGoal st) (daysPreset st)
    (customDays st) (sessions st) (plan st) (planSavedToast st) (trackMode st)
    (inputPage st) (inputReadPages st) (ramadanDay st) (progress st) (history st).
Definition setTab (v : Tab) (st : State) : State :=
  Build_State (theme st) v (goalPreset st) (customGoal st) (daysPreset st)
    (customDays st) (sessions st) (plan st) (planSavedToast st) (trackMode st)
    (inputPage st) (inputReadPages st) (ramadanDay st) (progress st) (history st).
Definition setGoalPreset (v : GoalPreset) (st : State) : State :=
  Build_State (theme st) (tab st) v (customGoal st) (daysPreset st)
    (customDays st) (sessions st) (plan st) (planSavedToast st) (trackMode st)
    (inputPage st) (inputReadPages st) (ramadanDay st) (progress st) (history st).
Definition setCustomGoal (v : value) (st : State) : State :=
  Build_State (theme st) (tab st) (goalPreset st) v (daysPreset st)
    (customDays st) (sessions st) (plan st) (planSavedToast st) (trackMode st)
    (inputPage st) (inputReadPages st) (ramadanDay st) (progress st) (history st).
Definition setDaysPreset (v : DaysPreset) (st : State) : State :=
  Build_State (theme st) (tab st) (goalPreset st) (customGoal st) v
    (customDays st) (sessions st) (plan st) (planSavedToast st) (trackMode st)
    (inputPage st) (inputReadPages st) (ramadanDay st) (progress st) (history st).
Definition setCustomDays (v : value) (st : State) : State :=
  Build_State (theme st) (tab st) (goalPreset st) (customGoal st) (daysPreset st)
    v (sessions st) (plan st) (planSavedToast st) (trackMode st)
    (inputPage st) (inputReadPages st) (ramadanDay st) (progress st) (history st).
Definition setSessions (v : value) (st : State) : State :=
  Build_State (theme st) (tab st) (goalPreset st) (customGoal st) (daysPreset st)
    (customDays st) v (plan st) (planSavedToast st) (trackMode st)
    (inputPage st) (inputReadPages st) (ramadanDay st) (progress st) (history st).
Definition setPlan (v : option Plan) (st : State) : State :=
  Build_State (theme st) (tab st) (goalPreset st) (customGoal st) (daysPreset st)
    (customDays st) (sessions st) v (planSavedToast st) (trackMode st)
    (inputPage st) (inputReadPages st) (ramadanDay st) (progress st) (history st).
Definition setPlanSavedToast (v : string) (st : State) : State :=
  Build_State (theme st) (tab st) (goalPreset st) (customGoal st) (daysPreset st)
    (customDays st) (sessions st) (plan st) v (trackMode st)
    (inputPage st) (inputReadPages st) (ramadanDay st) (progress st) (history st).
Definition setTrackMode (v : TrackMode) (st : State) : State :=
  Build_State (theme st) (tab st) (goalPreset st) (customGoal st) (daysPreset st)
    (customDays st) (sessions st) (plan st) (planSavedToast st) v
    (inputPage st) (inputReadPages st) (ramadanDay st) (progress st) (history st).
Definition setInputPage (v : number) (st : State) : State :=
  Build_State (theme st) (tab st) (goalPreset st) (customGoal st) (daysPreset st)
    (customDays st) (sessions st) (plan st) (planSavedToast st) (trackMode st)
    v (inputReadPages st) (ramadanDay st) (progress st) (history st).
Definition setInputReadPages (v : number) (st : State) : State :=
  Build_State (theme st) (tab st) (goalPreset st) (customGoal st) (daysPreset st)
    (customDays st) (sessions st) (plan st) (planSavedToast st) (trackMode st)
    (inputPage st) v (ramadanDay st) (progress st) (history st).
Definition setRamadanDay (v : number) (st : State) : State :=
  Build_State (theme st) (tab st) (goalPreset st) (customGoal st) (daysPreset st)
    (customDays st) (sessions st) (plan st) (planSavedToast st) (trackMode st)
    (inputPage st) (inputReadPages st) v (progress st) (history st).
Definition setProgress (v : ProgressState) (st : State) : State :=
  Build_State (theme st) (tab st) (goalPreset st) (customGoal st) (daysPreset st)
    (customDays st) (sessions st) (plan st) (planSavedToast st) (trackMode st)
    (inputPage st) (inputReadPages st) (ramadanDay st) v (history st).
Definition setHistory (v : list value) (st : State) : State :=
  Build_State (theme st) (tab st) (goalPreset st) (customGoal st) (daysPreset st)
    (customDays st) (sessions st) (plan st) (planSavedToast st) (trackMode st)
    (inputPage st) (inputReadPages st) (ramadanDay st) (progress st) v.

(** ** Storage *)

Abbreviation Storage := (gmap string string).

Module LS_KEYS.
Definition theme : string := "qp_theme_v1".
Definition plan : string := "qp_plan_v1".
Definition progress : string := "qp_progress_v1".
Definition history : string := "qp_history_v1".
Definition ramadanDay : string := "qp_ramadan_day_v1".
End LS_KEYS.

(** [localStorage.getItem], [setItem] and [removeItem]. *)
Definition getItem (ls : Storage) (k : string) : option string := ls !! k.
Definition setItem (k v : string) (ls : Storage) : Storage := <[k := v]> ls.
Definition removeItem (k : string) (ls : Storage) : Storage := delete k ls.

Definition Theme_string (t : Theme) : string :=
  match t with light => "light" | dark => "dark" end.

(** The parts of [planResults] and [trackTotals]. An absent per-salah
    value ([null]) is [None]. *)
Record PlanResults : Type := {
  pr_total : number;
  pr_perDay : number;
  pr_perSession : number;
  pr_perSalah : option number;
  pr_g : number;
  pr_d : number;
  pr_s : value;
}.

Inductive Status : Type := ontrack | slight | behind.

Record TrackTotals : Type := {
  tt_completed : number;
  tt_left : number;
  tt_daysLeft : number;
  tt_neededPerDay : number;
  tt_neededPerSession : number;
  tt_neededPerSalah : option number;
  tt_pct : number;
  tt_status : Status;
  tt_idealCompletedByNow : number;
  tt_dayNow : number;
  tt_dTotal : number;
}.

(** ** The component: derived values and handlers *)

Section Page.
Context `{!Host}.
Import JS.
Local Open Scope num_scope.

(** [safeJsonParse(value)]. *)
Definition safeJsonParse (v : option string) : result value :=
  if negb (truthy (of_nullable v)) then Ok VNull
  else match v with
       | Some s => try_catch (JSON_parse s) (Ok VNull)
       | None => Ok VNull
       end.

(** *** Values derived at each render *)

Definition effectiveGoal (st : State) : value :=
  match goalPreset st with
  | goal_custom => customGoal st
  | goal_1 => VNum (Fin 1)
  | goal_2 => VNum (Fin 2)
  | goal_3 => VNum (Fin 3)
  end.

Definition effectiveDays (st : State) : value :=
  match daysPreset st with
  | days_custom => customDays st
  | days_30 => VNum (Fin 30)
  | days_29 => VNum (Fin 29)
  end.

Definition totalPages (st : State) : number :=
  let g := clamp (Number (effectiveGoal st)) (Fin 1) (Fin 50) in
  QURAN_PAGES * g.

(** [plan?.daysTotal ?? clamp(Number(effectiveDays), 1, 60)]. *)
Definition daysTotalFromPlan (st : State) : value :=
  coalesce
    (match plan st with Some p => daysTotal p | None => VUndefined end)
    (VNum (clamp (Number (effectiveDays st)) (Fin 1) (Fin 60))).

(** [plan?.sessionsPerDay ?? sessions]. *)
Definition sessionsFromPlan (st : State) : value :=
  coalesce
    (match plan st with Some p => sessionsPerDay p | None => VUndefined end)
    (sessions st).

Definition planResults (st : State) : PlanResults :=
  let g := clamp (Number (effectiveGoal st)) (Fin 1) (Fin 50) in
  let d := clamp (Number (effectiveDays st)) (Fin 1) (Fin 60) in
  let s := sessions st in
  let total := QURAN_PAGES * g in
  let perDay := total / d in
  let perSession := perDay / Number s in
  let perSalah :=
    if strict_eq_num s (Fin 5) then Some (perDay / Fin 5) else None in
  {| pr_total := total; pr_perDay := perDay; pr_perSession := perSession;
     pr_perSalah := perSalah; pr_g := g; pr_d := d; pr_s := s |}.

Definition trackTotals (st : State) : TrackTotals :=
  let dTotal := clamp (Number (daysTotalFromPlan st)) (Fin 1) (Fin 60) in
  let dayNow := clamp (Number (VNum (ramadanDay st))) (Fin 1) dTotal in
  let completed :=
    clamp (Number (VNum (pagesCompleted (progress st)))) (Fin 0)
      (totalPages st) in
  let left := Num.max (Fin 0) (totalPages st - completed) in
  let daysLeft := Num.max (Fin 0) (dTotal - dayNow + Fin 1) in
  let neededPerDay :=
    if daysLeft >? Fin 0 then left / daysLeft else left in
  let neededPerSession := neededPerDay / Number (sessionsFromPlan st) in
  let neededPerSalah :=
    if strict_eq_num (sessionsFromPlan st) (Fin 5)
    then Some (neededPerDay / Fin 5) else None in
  let pct :=
    if totalPages st === Fin 0 then Fin 0
    else (completed / totalPages st) * Fin 100 in
  let idealCompletedByNow := (totalPages st / dTotal) * dayNow in
  let delta := completed - idealCompletedByNow in
  let status :=
    if delta >=? Fin 10 then ontrack
    else if delta >=? Fin (-10) then slight
    else behind in
  {| tt_completed := completed; tt_left := left; tt_daysLeft := daysLeft;
     tt_neededPerDay := neededPerDay;
     tt_neededPerSession := neededPerSession;
     tt_neededPerSalah := neededPerSalah; tt_pct := pct;
     tt_status := status; tt_idealCompletedByNow := idealCompletedByNow;
     tt_dayNow := dayNow; tt_dTotal := dTotal |}.

(** *** Handlers *)

Definition savePlan (st : State) (ls : Storage) : State * Storage :=
  let newPlan := {|
    goalKhatmah := VNum (clamp (Number (effectiveGoal st)) (Fin 1) (Fin 50));
    daysTotal := VNum (clamp (Number (effectiveDays st)) (Fin 1) (Fin 60));
    sessionsPerDay := sessions st |} in
  let st := setPlan (Some newPlan) st in
  let ls := setItem LS_KEYS.plan (JSON_stringify (Plan_value newPlan)) ls in
  let st := setPlanSavedToast "Plan saved ✓" st in
  (st, ls).

Definition resetAll (st : State) (ls : Storage) : State * Storage :=
  let st := setGoalPreset goal_1 st in
  let st := setCustomGoal (VNum (Fin 1)) st in
  let st := setDaysPreset days_30 st in
  let st := setCustomDays (VNum (Fin 30)) st in
  let st := setSessions (VNum (Fin 2)) st in
  let st := setPlan None st in
  let st := setTrackMode onPage st in
  let st := setInputPage (Fin 1) st in
  let st := setInputReadPages (Fin 0) st in
  let st := setRamadanDay (Fin 1) st in
  let st := setProgress {| pagesCompleted := Fin 0; lastUpdatedAt := VNull |} st in
  let st := setHistory [] st in
  let st := setPlanSavedToast EmptyString st in
  let ls := removeItem LS_KEYS.plan ls in
  let ls := removeItem LS_KEYS.progress ls in
  let ls := removeItem LS_KEYS.history ls in
  let ls := removeItem LS_KEYS.ramadanDay ls in
  (st, ls).

(** [plan?.goalKhatmah ?? clamp(Number(effectiveGoal), 1, 50)]. *)
Definition activeGoal (st : State) : value :=
  coalesce
    (match plan st with Some p => goalKhatmah p | None => VUndefined end)
    (VNum (clamp (Number (effectiveGoal st)) (Fin 1) (Fin 50))).

(** The value the handler computes for [pagesCompleted]. *)
Definition updateProgress_pagesCompleted (st : State) : number :=
  let goal := activeGoal st in
  match trackMode st with
  | onPage =>
      let page := clamp (Number (VNum (inputPage st))) (Fin 1) QURAN_PAGES in
      if strict_eq_num goal (Fin 1) then page - Fin 1
      else clamp (page - Fin 1) (Fin 0) (totalPages st)
  | readPages =>
      clamp (Number (VNum (inputReadPages st))) (Fin 0) (totalPages st)
  end.

Definition updateProgress_label (st : State) (pagesCompleted : number) : string :=
  match trackMode st with
  | onPage =>
      "Day " +:+ NumberToString (ramadanDay st) +:+ " — Page "
      +:+ NumberToString (clamp (Number (VNum (inputPage st))) (Fin 1) QURAN_PAGES)
  | readPages =>
      "Day " +:+ NumberToString (ramadanDay st) +:+ " — "
      +:+ NumberToString pagesCompleted +:+ " pages read"
  end.

Definition updateProgress_newItem (now : number) (st : State) : HistoryItem :=
  let pagesCompleted := updateProgress_pagesCompleted st in
  {| at_ := now; label := updateProgress_label st pagesCompleted;
     item_pagesCompleted := pagesCompleted |}.

(** [updateProgress()], with [now = Date.now()]. *)
Definition updateProgress (now : number) (st0 : State) (ls : Storage)
  : State * Storage :=
  let pagesCompleted := updateProgress_pagesCompleted st0 in
  let newProgress :=
    {| pagesCompleted := pagesCompleted; lastUpdatedAt := VNum now |} in
  let st := setProgress newProgress st0 in
  let ls :=
    setItem LS_KEYS.progress
      (JSON_stringify (ProgressState_value newProgress)) ls in
  let newItem := updateProgress_newItem now st0 in
  let nextHistory := take 10 (HistoryItem_value newItem :: history st0) in
  let st := setHistory nextHistory st in
  let ls := setItem LS_KEYS.history (JSON_stringify (VArr nextHistory)) ls in
  (st, ls).

Definition setRamadanDayPersist (n : number) (st : State) (ls : Storage)
  : State * Storage :=
  let v := clamp n (Fin 1) (Number (daysTotalFromPlan st)) in
  let st := setRamadanDay v st in
  let ls := setItem LS_KEYS.ramadanDay (NumberToString v) ls in
  (st, ls).

(** *** The effects run when the component mounts *)

(** [[1, 2, 3].includes(v)] and the preset it selects. *)
Definition goal_preset_of (v : value) : option GoalPreset :=
  if strict_eq_num v (Fin 1) then Some goal_1
  else if strict_eq_num v (Fin 2) then Some goal_2
  else if strict_eq_num v (Fin 3) then Some goal_3
  else None.

(** [v === 29 || v === 30] and the preset it selects. *)
Definition days_preset_of (v : value) : option DaysPreset :=
  if strict_eq_num v (Fin 29) then Some days_29
  else if strict_eq_num v (Fin 30) then Some days_30
  else None.

(** The body of [if (savedPlan && ...) { ... }]. *)
Definition load_adopt_plan (gk dt sp : value) (st : State) : State :=
  let st :=
    setPlan (Some {| goalKhatmah := gk; daysTotal := dt; sessionsPerDay := sp |}) st in
  let st :=
    match goal_preset_of gk with
    | Some g => setGoalPreset g st
    | None => setCustomGoal gk (setGoalPreset goal_custom st)
    end in
  let st :=
    match days_preset_of dt with
    | Some d => setDaysPreset d st
    | None => setCustomDays dt (setDaysPreset days_custom st)
    end in
  setSessions sp st.

Definition load_theme (ls : Storage) (st : State) : State :=
  let savedTheme := coalesce (of_nullable (getItem ls LS_KEYS.theme)) VNull in
  if strict_eq_str savedTheme "light" then setTheme light st
  else if strict_eq_str savedTheme "dark" then setTheme dark st
  else st.

Definition load_plan (ls : Storage) (st : State) : result State :=
  savedPlan ← safeJsonParse (getItem ls LS_KEYS.plan);
  if truthy savedPlan then
    gk ← get_prop savedPlan "goalKhatmah";
    if truthy gk then
      dt ← get_prop savedPlan "daysTotal";
      if truthy dt then
        sp ← get_prop savedPlan "sessionsPerDay";
        if truthy sp then mret (load_adopt_plan gk dt sp st)
        else mret st
      else mret st
    else mret st
  else mret st.

(** The test [typeof savedProgress.pagesCompleted === "number"] is the
    match on [VNum]. *)
Definition load_progress (ls : Storage) (st : State) : result State :=
  savedProgress ← safeJsonParse (getItem ls LS_KEYS.progress);
  if truthy savedProgress then
    pc ← get_prop savedProgress "pagesCompleted";
    match pc with
    | VNum n =>
        lu ← get_prop savedProgress "lastUpdatedAt";
        mret (setProgress
                {| pagesCompleted := n; lastUpdatedAt := coalesce lu VNull |} st)
    | _ => mret st
    end
  else mret st.

(** The test [Array.isArray(savedHistory)] is the match on [VArr]. *)
Definition load_history (ls : Storage) (st : State) : result State :=
  savedHistory ← safeJsonParse (getItem ls LS_KEYS.history);
  match savedHistory with
  | VArr items => mret (setHistory (take 30 items) st)
  | _ => mret st
  end.

Definition load_ramadanDay (ls : Storage) (st : State) : State :=
  let savedRamadanDay := Number (of_nullable (getItem ls LS_KEYS.ramadanDay)) in
  if negb (Num.isNaN savedRamadanDay) && (savedRamadanDay >? Fin 0)
  then setRamadanDay savedRamadanDay st
  else st.

(** The first effect of [Page]: the state is read back from storage. *)
Definition load (ls : Storage) (st : State) : result State :=
  let st := load_theme ls st in
  st ← load_plan ls st;
  st ← load_progress ls st;
  st ← load_history ls st;
  mret (load_ramadanDay ls st).

(** The second effect: the theme is written back whenever it changes. *)
Definition persistTheme (st : State) (ls : Storage) : Storage :=
  setItem LS_KEYS.theme (Theme_string (theme st)) ls.

(** Mounting the component over a storage. *)
Definition mount (ls : Storage) : result (State * Storage) :=
  st ← load ls initial_state;
  mret (st, persistTheme st ls).

(** *** User events *)

Inductive event : Type :=
| ToggleTheme
| SetTab (t : Tab)
| SetGoalPreset (g : GoalPreset)
| SetCustomGoal (n : number)
| SetDaysPreset (d : DaysPreset)
| SetCustomDays (n : number)
| SetSessions (s : SessionsPreset)
| SavePlan
| ToastTimeout
| ResetAll
| SetTrackMode (m : TrackMode)
| SetInputPage (n : number)
| SetInputReadPages (n : number)
| UpdateProgress (now : number)
| SetRamadanDay (n : number).

Definition step (w : State * Storage) (e : event) : State * Storage :=
  let '(st, ls) := w in
  match e with
  | ToggleTheme =>
      let st := setTheme (match theme st with light => dark | dark => light end) st in
      (st, persistTheme st ls)
  | SetTab t => (setTab t st, ls)
  | SetGoalPreset g => (setGoalPreset g st, ls)
  | SetCustomGoal n => (setCustomGoal (VNum n) st, ls)
  | SetDaysPreset d => (setDaysPreset d st, ls)
  | SetCustomDays n => (setCustomDays (VNum n) st, ls)
  | SetSessions s => (setSessions (SessionsPreset_value s) st, ls)
  | SavePlan => savePlan st ls
  | ToastTimeout => (setPlanSavedToast EmptyString st, ls)
  | ResetAll => resetAll st ls
  | SetTrackMode m => (setTrackMode m st, ls)
  | SetInputPage n => (setInputPage n st, ls)
  | SetInputReadPages n => (setInputReadPages n st, ls)
  | UpdateProgress now => updateProgress now st ls
  | SetRamadanDay n => setRamadanDayPersist n st ls
  end.

(** A run of the component over a list of events, oldest first. *)
Definition run (w : State * Storage) (es : list event) : State * Storage :=
  foldl step w es.

End Page.

(** ** Notions used to state the properties *)

(** Two numbers are the same value: rationals are compared by [Qeq]. *)
Definition num_eq (a b : number) : Prop :=
  match a, b with
  | NaN, NaN | NegInf, NegInf | PosInf, PosInf => True
  | Fin x, Fin y => x == y
  | _, _ => False
  end.
Infix "=n=" := num_eq (at level 70).

(** [v === 5] holds exactly for the number five. *)
Definition is_five (v : value) : Prop :=
  exists q, v = VNum (Fin q) /\ q == 5.

(** A key that cannot be read back: it is missing, or empty, or its text
    is not JSON. *)
Definition unreadable `{!Host} (ls : Storage) (k : string) : Prop :=
  getItem ls k = None
  \/ getItem ls k = Some EmptyString
  \/ exists s e, getItem ls k = Some s /\ JSON_parse s = Throw e.

(** ** A host for closed examples

    A host in which every JSON text is rejected and no string converts to
    a number. The closed examples below run it on states built by user
    events, where each coerced value is a number already and no compared
    field is the result of a host call. *)
Definition silent_host : Host := {|
  JSON_parse := fun _ => Throw SyntaxError;
  JSON_stringify := fun _ => EmptyString;
  StringToNumber := fun _ => NaN;
  ObjectToNumber := fun _ => NaN;
  NumberToString := fun _ => EmptyString;
|}.

(** The state of the component after a list of events from its initial
    state, in the host of the examples. *)
Definition demo (es : list event) : State :=
  (@run silent_host (initial_state, ∅) es).1.

(** A plan of 2 days on day 1 has 302 pages as its ideal; the state in
    which [pages] pages are reported as read under it. *)
Definition two_days_with (pages : Q) : State :=
  demo [SetDaysPreset days_custom; SetCustomDays (Fin 2);
        SetTrackMode readPages; SetInputReadPages (Fin pages);
        UpdateProgress (Fin 0)].

(** The storage mirrors the state: each of the four keys holds the text
    written for the current field, or is absent while the field has its
    initial value. *)
Definition persisted `{!Host} (w : State * Storage) : Prop :=
  getItem w.2 LS_KEYS.plan
  = (fun p => JSON_stringify (Plan_value p)) <$> plan w.1
  /\ (getItem w.2 LS_KEYS.progress
      = Some (JSON_stringify (ProgressState_value (progress w.1)))
      \/ getItem w.2 LS_KEYS.progress = None
         /\ progress w.1 = {| pagesCompleted := Fin 0; lastUpdatedAt := VNull |})
  /\ (getItem w.2 LS_KEYS.history
      = Some (JSON_stringify (VArr (history w.1)))
      \/ getItem w.2 LS_KEYS.history = None /\ history w.1 = [])
  /\ (getItem w.2 LS_KEYS.ramadanDay = Some (NumberToString (ramadanDay w.1))
      \/ getItem w.2 LS_KEYS.ramadanDay = None /\ ramadanDay w.1 = Fin 1).

(** The host reads back what it wrote for [v]: the text is not empty and
    parses to [v]. *)
Definition reads_back `{!Host} (v : value) : Prop :=
  JSON_stringify v <> EmptyString
  /\ JSON_parse (JSON_stringify v) = Ok v.

(** A host for the closed examples of reloading: it writes an array as
    one text and every other value as another, reads them back as [arr]
    and [obj], and converts every string to [day]. *)
Definition replay_host (obj arr : value) (day : number) : Host := {|
  JSON_parse := fun s => if String.eqb s "a" then Ok arr else Ok obj;
  JSON_stringify := fun v => match v with VArr _ => "a" | _ => "o" end;
  StringToNumber := fun _ => day;
  ObjectToNumber := fun _ => NaN;
  NumberToString := fun _ => "n";
|}%string.

(** What a mounted state satisfies whatever the storage held: a history
    of at most 30 entries; a day cursor that is a positive number or
    [+Infinity]; and, when a plan was restored, three truthy fields and
    plan inputs that show this plan. *)
Definition restored_ok `{!Host} (st : State) : Prop :=
  (length (history st) <= 30)%nat
  /\ (ramadanDay st = PosInf \/ exists r, ramadanDay st = Fin r /\ 0 < r)
  /\ (forall p, plan st = Some p ->
      JS.truthy (goalKhatmah p) = true /\ JS.truthy (daysTotal p) = true
      /\ JS.truthy (sessionsPerDay p) = true
      /\ JS.Number (effectiveGoal st) =n= JS.Number (goalKhatmah p)
      /\ JS.Number (effectiveDays st) =n= JS.Number (daysTotal p)
      /\ sessions st = sessionsPerDay p).

(** The replaying hosts of the closed examples: one that reads back the
    default plan, one that reads back the first update of a fresh
    component, made at time 5, and one that converts every text to 30. *)
Definition plan_host : Host :=
  replay_host
    (Plan_value {| goalKhatmah := VNum (Fin 1); daysTotal := VNum (Fin 30);
                   sessionsPerDay := VNum (Fin 2) |})
    VNull NaN.

Definition first_update : State * Storage :=
  @updateProgress (replay_host VNull VNull NaN) (Fin 5) initial_state ∅.

Definition update_host : Host :=
  replay_host (ProgressState_value (progress first_update.1))
    (VArr (history first_update.1)) NaN.

Definition day_host : Host := replay_host VNull VNull (Fin 30).

(** *** Rounding *)

(** The numbers of this program are below [2 ^ 21] in magnitude. *)
Definition small (x : Q) : Prop := - (2097152) < x < 2097152.

(** The rounding error allowed on a small number: [2 ^ -33]. *)
Definition eps : Q := 1 # 8589934592.

(** [r] stands for the rounded [x]: at most [eps] away, and on the same
    side of every integer. *)
Definition rounds_to (r x : Q) : Prop :=
  - eps <= r - x <= eps
  /\ (forall a : Z, inject_Z a <= x -> inject_Z a <= r)
  /\ (forall a : Z, x <= inject_Z a -> r <= inject_Z a).

(** The state after [setup], the day set to [day] and [pages] pages
    reported as read. *)
Definition reported (setup : list event) (day pages : Q) : State :=
  demo (setup ++ [SetRamadanDay (Fin day); SetTrackMode readPages;
                  SetInputReadPages (Fin pages); UpdateProgress (Fin 0)]).

(** * Properties *)

(** ** Numbers and [clamp] *)

Lemma num_eq_refl a : a =n= a.
Proof. destruct a; simpl; auto with qarith. Qed.

Lemma Qle_bool_false x y : Qle_bool x y = false -> y < x.
Proof.
  intros E. apply Qnot_le_lt. intros L.
  apply Qle_bool_iff in L. congruence.
Qed.

Lemma Qeq_bool_false x y : Qeq_bool x y = false -> ~ x == y.
Proof. intros E L. apply Qeq_bool_iff in L. congruence. Qed.

(** Case analysis on the boolean comparisons of rationals. *)
Ltac qcases :=
  repeat match goal with
  | |- context [Qle_bool ?x ?y] =>
      let E := fresh "E" in
      destruct (Qle_bool x y) eqn:E;
      [apply Qle_bool_iff in E | apply Qle_bool_false in E]
  | |- context [Qeq_bool ?x ?y] =>
      let E := fresh "E" in
      destruct (Qeq_bool x y) eqn:E;
      [apply Qeq_bool_iff in E | apply Qeq_bool_false in E]
  end.

(** [clamp] into a finite interval returns a finite number of the
    interval, whatever the input, [NaN] and the infinities included. *)
Lemma clamp_range n lo hi :
  lo <= hi ->
  exists q, clamp n (Fin lo) (Fin hi) = Fin q /\ lo <= q <= hi.
Proof.
  intros L. destruct n as [| |x|]; unfold clamp; simpl.
  - exists lo. split; [reflexivity | lra].
  - qcases; eexists; (split; [reflexivity | lra]).
  - qcases; simpl; qcases; eexists; (split; [reflexivity | lra]).
  - exists hi. split; [reflexivity | lra].
Qed.

(** A value inside the interval is returned as it is. *)
Lemma clamp_inside q lo hi :
  lo <= q <= hi -> clamp (Fin q) (Fin lo) (Fin hi) =n= Fin q.
Proof.
  intros [L1 L2]. unfold clamp; simpl.
  qcases; simpl; qcases; simpl; lra.
Qed.

(** X2. [clamp] is idempotent: clamping a clamped value into the same
    interval changes nothing. *)
Lemma clamp_idempotent n lo hi :
  lo <= hi ->
  clamp (clamp n (Fin lo) (Fin hi)) (Fin lo) (Fin hi)
  =n= clamp n (Fin lo) (Fin hi).
Proof.
  intros L. destruct (clamp_range n lo hi L) as (q & -> & B).
  now apply clamp_inside.
Qed.

(** ** Rounding to binary64 *)

Arguments Binary64.round : simpl never.

Lemma rne_floor y : (Qfloor y <= Binary64.rne y <= Qfloor y + 1)%Z.
Proof.
  unfold Binary64.rne.
  destruct (Qcompare _ _); try destruct (Z.even _); lia.
Qed.

(** The nearest integer is at most one half away. *)
Lemma rne_error y : Qabs (inject_Z (Binary64.rne y) - y) <= 1 # 2.
Proof.
  unfold Binary64.rne.
  pose proof (Qfloor_le y) as Lo. pose proof (Qlt_floor y) as Hi.
  set (f := Qfloor y) in *. clearbody f.
  rewrite inject_Z_plus in Hi. change (inject_Z 1) with 1 in Hi.
  apply Qabs_Qle_condition.
  destruct (Qcompare (y - inject_Z f) (1 # 2)) eqn:C.
  - apply Qeq_alt in C.
    destruct (Z.even f); rewrite ?inject_Z_plus; change (inject_Z 1) with 1;
      split; lra.
  - apply Qlt_alt in C. split; lra.
  - apply Qgt_alt in C. rewrite inject_Z_plus. change (inject_Z 1) with 1.
    split; lra.
Qed.

(** It does not cross an integer. *)
Lemma rne_ge (a : Z) y : inject_Z a <= y -> (a <= Binary64.rne y)%Z.
Proof.
  intros L. pose proof (rne_floor y) as [F _].
  assert (a <= Qfloor y)%Z; [| lia].
  rewrite <- (Qfloor_Z a). now apply Qfloor_resp_le.
Qed.

Lemma rne_le (a : Z) y : y <= inject_Z a -> (Binary64.rne y <= a)%Z.
Proof.
  intros L. unfold Binary64.rne.
  pose proof (Qfloor_le y) as Lo.
  assert (F : (Qfloor y <= a)%Z).
  { rewrite <- (Qfloor_Z a). now apply Qfloor_resp_le. }
  set (f := Qfloor y) in *. clearbody f.
  assert (S : inject_Z f < y -> (f + 1 <= a)%Z).
  { intros G. assert (inject_Z f < inject_Z a) as E by lra.
    rewrite <- Zlt_Qlt in E. lia. }
  destruct (Qcompare (y - inject_Z f) (1 # 2)) eqn:C.
  - apply Qeq_alt in C. destruct (Z.even f); [lia |]. apply S. lra.
  - assumption.
  - apply Qgt_alt in C. apply S. lra.
Qed.

Lemma ilog2_small x :
  0 < x -> x < inject_Z (2 ^ 21) -> (Binary64.ilog2 x <= 20)%Z.
Proof.
  intros P B. unfold Binary64.ilog2.
  destruct (Qle_bool 1 x) eqn:E.
  - apply Qle_bool_iff in E.
    assert (F1 : (1 <= Qfloor x)%Z).
    { rewrite <- (Qfloor_Z 1). now apply Qfloor_resp_le. }
    assert (F2 : (Qfloor x < 2 ^ 21)%Z).
    { rewrite Zlt_Qlt. pose proof (Qfloor_le x). lra. }
    apply Z.log2_lt_pow2 in F2; lia.
  - pose proof (Z.log2_up_nonneg (Qceiling (/ x))). lia.
Qed.

Lemma overflow_large : inject_Z (2 ^ 22) <= Binary64.overflow.
Proof.
  unfold Binary64.overflow. rewrite <- Zle_Qle.
  apply Z.pow_le_mono_r; lia.
Qed.

(** Rounding a small number gives a finite number, at most [eps] away,
    on the same side of every integer. *)
Lemma round_small x :
  small x ->
  exists r, Binary64.round x = Fin r
    /\ - eps <= r - x <= eps
    /\ (forall a : Z, inject_Z a <= x -> inject_Z a <= r)
    /\ (forall a : Z, x <= inject_Z a -> r <= inject_Z a).
Proof.
  unfold small, eps. intros B. unfold Binary64.round.
  destruct (Qeq_bool x 0) eqn:Z0.
  - apply Qeq_bool_iff in Z0. exists 0. split; [reflexivity |].
    split; [| split; intros a L]; lra.
  - assert (NZ : ~ x == 0) by (intros E; apply Qeq_bool_iff in E; congruence).
    assert (PA : 0 < Qabs x).
    { destruct (Q_dec x 0) as [[L | G] | E]; [| | contradiction];
        apply Qabs_case; intros; lra. }
    assert (BA : Qabs x < inject_Z (2 ^ 21)).
    { change (inject_Z (2 ^ 21)) with 2097152. apply Qabs_case; intros; lra. }
    pose proof (ilog2_small _ PA BA) as IL.
    set (e := Binary64.exponent x).
    assert (Ee : (e <= -32)%Z) by (unfold e, Binary64.exponent; lia).
    assert ((0 <=? e)%Z = false) as -> by (apply Z.leb_gt; lia).
    set (s := (2 ^ (- e))%Z).
    assert (Ss : (2 ^ 32 <= s)%Z) by (apply Z.pow_le_mono_r; lia).
    assert (SQ : inject_Z (2 ^ 32) <= inject_Z s) by (now rewrite <- Zle_Qle).
    change (inject_Z (2 ^ 32)) with 4294967296 in SQ.
    clearbody s. remember (inject_Z s) as S eqn:HS.
    pose proof (rne_error (x * S)) as Er.
    apply Qabs_Qle_condition in Er.
    set (m := Binary64.rne (x * S)) in *.
    assert (SP : 0 < S) by lra.
    assert (D : inject_Z m / S - x == (inject_Z m - x * S) / S)
      by (field; lra).
    assert (R1 : - (1 # 8589934592) <= inject_Z m / S - x <= 1 # 8589934592).
    { rewrite D. split.
      - apply Qle_shift_div_l; [assumption | lra].
      - apply Qle_shift_div_r; [assumption | lra]. }
    assert (OV : Qle_bool Binary64.overflow (Qabs (inject_Z m / S)) = false).
    { destruct (Qle_bool _ _) eqn:O; [| reflexivity].
      apply Qle_bool_iff in O. pose proof overflow_large as OL.
      change (inject_Z (2 ^ 22)) with 4194304 in OL.
      assert (Qabs (inject_Z m / S) <= 2097153);
        [apply Qabs_Qle_condition; split; lra | lra]. }
    rewrite OV. exists (Qred (inject_Z m / S)). split; [reflexivity |].
    split; [rewrite Qred_correct; exact R1 |].
    split; intros a L; rewrite Qred_correct.
    + apply Qle_shift_div_l; [assumption |].
      rewrite HS, <- inject_Z_mult, <- Zle_Qle. apply rne_ge.
      rewrite inject_Z_mult, <- HS. nra.
    + apply Qle_shift_div_r; [assumption |].
      rewrite HS, <- inject_Z_mult, <- Zle_Qle. apply rne_le.
      rewrite inject_Z_mult, <- HS. nra.
Qed.

(** Rounding does not tell apart two representations of one rational. *)
Lemma round_proper x y : x == y -> Binary64.round x = Binary64.round y.
Proof.
  intros E. unfold Binary64.round.
  assert (Qeq_bool x 0 = Qeq_bool y 0) as ->.
  { destruct (Qeq_bool x 0) eqn:A, (Qeq_bool y 0) eqn:B; try reflexivity.
    - apply Qeq_bool_iff in A. rewrite E in A. apply Qeq_bool_iff in A.
      congruence.
    - apply Qeq_bool_iff in B. rewrite <- E in B. apply Qeq_bool_iff in B.
      congruence. }
  assert (Ex : Binary64.exponent x = Binary64.exponent y).
  { unfold Binary64.exponent, Binary64.ilog2.
    assert (Qle_bool 1 (Qabs x) = Qle_bool 1 (Qabs y)) as ->.
    { destruct (Qle_bool 1 (Qabs x)) eqn:A, (Qle_bool 1 (Qabs y)) eqn:B;
        try reflexivity.
      - apply Qle_bool_iff in A. rewrite E in A. apply Qle_bool_iff in A.
        congruence.
      - apply Qle_bool_iff in B. rewrite <- E in B. apply Qle_bool_iff in B.
        congruence. }
    assert (Qfloor (Qabs x) = Qfloor (Qabs y)) as ->
      by (apply Qfloor_comp; now rewrite E).
    assert (Qceiling (/ Qabs x) = Qceiling (/ Qabs y)) as ->
      by (apply Qceiling_comp; now rewrite E).
    reflexivity. }
  rewrite Ex.
  assert (R : forall u v, u == v -> Binary64.rne u = Binary64.rne v).
  { intros u v F. unfold Binary64.rne.
    assert (Qfloor u = Qfloor v) as -> by (now apply Qfloor_comp).
    assert (Qcompare (u - inject_Z (Qfloor v)) (1 # 2)
            = Qcompare (v - inject_Z (Qfloor v)) (1 # 2)) as ->
      by (now rewrite F).
    reflexivity. }
  rewrite (R (x / inject_Z (2 ^ Binary64.exponent y))
             (y / inject_Z (2 ^ Binary64.exponent y))) by (now rewrite E).
  rewrite (R (x * inject_Z (2 ^ (- Binary64.exponent y)))
             (y * inject_Z (2 ^ (- Binary64.exponent y)))) by (now rewrite E).
  assert (Qle_bool 0 x = Qle_bool 0 y) as ->; [| reflexivity].
  destruct (Qle_bool 0 x) eqn:A, (Qle_bool 0 y) eqn:B; try reflexivity.
  - apply Qle_bool_iff in A. rewrite E in A. apply Qle_bool_iff in A.
    congruence.
  - apply Qle_bool_iff in B. rewrite <- E in B. apply Qle_bool_iff in B.
    congruence.
Qed.

Lemma sub_small x y :
  small (x - y) -> exists r, (Fin x - Fin y)%num = Fin r /\ rounds_to r (x - y).
Proof. intros B. exact (round_small _ B). Qed.

Lemma add_small x y :
  small (x + y) -> exists r, (Fin x + Fin y)%num = Fin r /\ rounds_to r (x + y).
Proof. intros B. exact (round_small _ B). Qed.

Lemma mul_small x y :
  small (x * y) -> exists r, (Fin x * Fin y)%num = Fin r /\ rounds_to r (x * y).
Proof. intros B. exact (round_small _ B). Qed.

Lemma div_small x y :
  ~ y == 0 -> small (x / y) ->
  exists r, (Fin x / Fin y)%num = Fin r /\ rounds_to r (x / y).
Proof.
  intros N B. simpl.
  assert (Qeq_bool y 0 = false) as ->.
  { destruct (Qeq_bool y 0) eqn:E; [| reflexivity].
    apply Qeq_bool_iff in E. contradiction. }
  exact (round_small _ B).
Qed.

(** The integer bounds of a [rounds_to] fact, at the integers [lo] and
    [hi], as inequalities between rationals. *)
Ltac int_bounds R lo hi :=
  let L := fresh "Lo" in
  let U := fresh "Hi" in
  pose proof (proj1 (proj2 R) lo) as L;
  pose proof (proj2 (proj2 R) hi) as U;
  cbv [inject_Z] in L, U.

(** A rounded whole number is this number. *)
Lemma rounds_to_whole r x (z : Z) : rounds_to r x -> x == inject_Z z -> r == x.
Proof.
  intros (_ & Lo & Hi) E.
  pose proof (Lo z) as L. pose proof (Hi z) as U. lra.
Qed.

(** The quotient of a number that is not negative by one that is at
    least 1. *)
Lemma div_bounds x y : 0 <= x -> 1 <= y -> 0 <= x / y <= x.
Proof.
  intros Bx By. split.
  - apply Qle_shift_div_l; lra.
  - apply Qle_shift_div_r; [lra | nra].
Qed.

Section Properties.
Context `{!Host}.
Import JS.

(** ** The derived values are finite and in range *)

Lemma totalPages_range st :
  exists g t, clamp (Number (effectiveGoal st)) (Fin 1) (Fin 50) = Fin g
    /\ 1 <= g <= 50
    /\ totalPages st = Fin t /\ 604 <= t <= 30200 /\ rounds_to t (604 * g).
Proof.
  destruct (clamp_range (Number (effectiveGoal st)) 1 50) as (g & Eg & Bg);
    [lra |].
  destruct (mul_small 604 g) as (t & Et & Rt); [unfold small; lra |].
  exists g, t. unfold totalPages, QURAN_PAGES. rewrite Eg.
  int_bounds Rt 604%Z 30200%Z.
  split; [reflexivity |]. split; [exact Bg |]. split; [exact Et |].
  split; [lra | exact Rt].
Qed.

(** The numbers [trackTotals] starts from: the total, the day total, the
    day and the completed pages, each finite and inside its interval. *)
Lemma trackTotals_inputs st :
  exists t d k c,
    totalPages st = Fin t /\ 604 <= t <= 30200
    /\ tt_dTotal (trackTotals st) = Fin d /\ 1 <= d <= 60
    /\ tt_dayNow (trackTotals st) = Fin k /\ 1 <= k <= d
    /\ tt_completed (trackTotals st) = Fin c /\ 0 <= c <= t.
Proof.
  destruct (totalPages_range st) as (g & t & _ & Bg & Et & Bt & _).
  unfold trackTotals; cbn [tt_dTotal tt_dayNow tt_completed]. rewrite Et.
  destruct (clamp_range (Number (daysTotalFromPlan st)) 1 60) as (d & Ed & Bd);
    [lra |].
  rewrite Ed.
  destruct (clamp_range (Number (VNum (ramadanDay st))) 1 d) as (k & Ek & Bk);
    [lra |].
  destruct (clamp_range (Number (VNum (pagesCompleted (progress st)))) 0 t)
    as (c & Ec & Bc); [lra |].
  exists t, d, k, c. repeat split; auto; lra.
Qed.

(** The ideal [(tp / d) * k] after its two roundings. *)
Lemma ideal_value (tp d k : Q) :
  604 <= tp <= 30200 -> 1 <= d <= 60 -> 1 <= k <= d ->
  exists i, (Fin tp / Fin d * Fin k)%num = Fin i
    /\ - (61 * eps) <= i - tp / d * k <= 61 * eps
    /\ 0 <= i <= 1812000.
Proof.
  intros Bt Bd Bk.
  pose proof (div_bounds tp d) as Bz.
  destruct (div_small tp d) as (q & -> & Rq); [lra | unfold small; lra |].
  set (z := tp / d) in *. clearbody z.
  int_bounds Rq 0%Z 30200%Z.
  destruct Rq as (Eq & _).
  destruct (mul_small q k) as (i & -> & Ri); [unfold small; nra |].
  exists i. split; [reflexivity |].
  int_bounds Ri 0%Z 1812000%Z.
  destruct Ri as (Ei & _). unfold eps in *.
  split; [split; nra | split; [apply Lo0 | apply Hi0]; nra].
Qed.

(** The difference [completed - ideal] and the status decided on it. *)
Lemma status_value st (c i : Q) :
  tt_completed (trackTotals st) = Fin c ->
  tt_idealCompletedByNow (trackTotals st) = Fin i ->
  0 <= c <= 30200 -> 0 <= i <= 1812000 ->
  exists delta, (Fin c - Fin i)%num = Fin delta
    /\ rounds_to delta (c - i)
    /\ tt_status (trackTotals st)
       = (if Qle_bool 10 delta then ontrack
          else if Qle_bool (-10) delta then slight else behind).
Proof.
  intros Ec Ei Bc Bi.
  destruct (sub_small c i) as (delta & E & R); [unfold small; lra |].
  exists delta. split; [exact E |]. split; [exact R |].
  change (tt_status (trackTotals st))
    with (if (tt_completed (trackTotals st)
              - tt_idealCompletedByNow (trackTotals st) >=? Fin 10)%num
          then ontrack
          else if (tt_completed (trackTotals st)
                   - tt_idealCompletedByNow (trackTotals st) >=? Fin (-10))%num
               then slight else behind).
  rewrite Ec, Ei, E. reflexivity.
Qed.

(** C1. In [trackTotals], [completed] is the stored progress clamped
    into [0, totalPages], the ideal is [(totalPages / dTotal) * dayNow]
    for the clamped day total and day, and
    [delta = completed - idealCompletedByNow] is a finite number on which
    the status is decided in order, the first match winning: [ontrack]
    from 10 upwards, else [slight] from -10 upwards, else [behind]. So 10
    gives [ontrack], 9.999 and -10 give [slight], and -10.001 gives
    [behind]. *)
Theorem status_classification st :
  let t := trackTotals st in
  let completed :=
    clamp (pagesCompleted (progress st)) (Fin 0) (totalPages st) in
  let dTotal := clamp (Number (daysTotalFromPlan st)) (Fin 1) (Fin 60) in
  let dayNow := clamp (ramadanDay st) (Fin 1) dTotal in
  let ideal := (totalPages st / dTotal * dayNow)%num in
  tt_completed t = completed
  /\ tt_idealCompletedByNow t = ideal
  /\ exists delta : Q,
       (completed - ideal)%num = Fin delta
       /\ (10 <= delta -> tt_status t = ontrack)
       /\ (~ 10 <= delta -> -10 <= delta -> tt_status t = slight)
       /\ (~ 10 <= delta -> ~ -10 <= delta -> tt_status t = behind)
       /\ (delta == 10 -> tt_status t = ontrack)
       /\ (delta == 9999 # 1000 -> tt_status t = slight)
       /\ (delta == -10 -> tt_status t = slight)
       /\ (delta == - (10001 # 1000) -> tt_status t = behind).
Proof.
  intros t completed dTotal dayNow ideal.
  split; [reflexivity |]. split; [reflexivity |].
  destruct (trackTotals_inputs st)
    as (tp & d & k & c & Et & Bt & Ed & Bd & Ek & Bk & Ec & Bc).
  change (tt_dTotal (trackTotals st)) with dTotal in Ed.
  change (tt_dayNow (trackTotals st)) with dayNow in Ek.
  change (tt_completed (trackTotals st)) with completed in Ec.
  destruct (ideal_value tp d k Bt Bd Bk) as (i & Ei & _ & Bi).
  assert (Ei' : tt_idealCompletedByNow (trackTotals st) = Fin i).
  { change (tt_idealCompletedByNow (trackTotals st)) with ideal.
    unfold ideal. now rewrite Et, Ed, Ek. }
  destruct (status_value st c i Ec Ei') as (delta & E & _ & Es); [lra | lra |].
  exists delta. fold t in Es. rewrite Es.
  split; [unfold ideal; now rewrite Ec, Et, Ed, Ek, Ei |].
  assert (T10 : 10 <= delta -> Qle_bool 10 delta = true) by (apply Qle_bool_iff).
  assert (F10 : ~ 10 <= delta -> Qle_bool 10 delta = false).
  { intros N. destruct (Qle_bool 10 delta) eqn:F; [| reflexivity].
    apply Qle_bool_iff in F. contradiction. }
  assert (Tm10 : -10 <= delta -> Qle_bool (-10) delta = true)
    by (apply Qle_bool_iff).
  assert (Fm10 : ~ -10 <= delta -> Qle_bool (-10) delta = false).
  { intros N. destruct (Qle_bool (-10) delta) eqn:F; [| reflexivity].
    apply Qle_bool_iff in F. contradiction. }
  repeat split; intros.
  - rewrite T10 by assumption. reflexivity.
  - rewrite F10, Tm10 by assumption. reflexivity.
  - rewrite F10, Fm10 by assumption. reflexivity.
  - rewrite T10 by lra. reflexivity.
  - rewrite F10, Tm10 by lra. reflexivity.
  - rewrite F10, Tm10 by lra. reflexivity.
  - rewrite F10, Fm10 by lra. reflexivity.
Qed.

(** [daysLeft], from a day total [d] of [1, 60] and a day [k] of
    [1, d]. *)
Lemma daysLeft_value (d k : Q) :
  1 <= d <= 60 -> 1 <= k <= d ->
  exists dl, Num.max (Fin 0) (Fin d - Fin k + Fin 1)%num = Fin dl
    /\ 1 <= dl <= 60
    /\ - (2 * eps) <= dl - (d - k + 1) <= 2 * eps.
Proof.
  intros Bd Bk.
  destruct (sub_small d k) as (x & -> & Rx); [unfold small; lra |].
  int_bounds Rx 0%Z 59%Z.
  destruct (add_small x 1) as (dl & -> & Rd); [unfold small; lra |].
  int_bounds Rd 1%Z 60%Z.
  destruct Rx as (Ex & _). destruct Rd as (Ed & _). unfold eps in *.
  exists dl. simpl.
  assert (Qle_bool 0 dl = true) as -> by (apply Qle_bool_iff; lra).
  split; [reflexivity |]. split; lra.
Qed.

(** C10. In [trackTotals], [daysLeft] is a finite number and at least 1
    for every state, so the test [daysLeft > 0] always succeeds and
    [neededPerDay] is [left / daysLeft]: the branch that returns the bare
    [left] is never taken. *)
Theorem daysLeft_at_least_one st :
  let t := trackTotals st in
  exists n : Q,
    tt_daysLeft t = Fin n /\ 1 <= n
    /\ (tt_daysLeft t >? Fin 0)%num = true
    /\ tt_neededPerDay t = (tt_left t / tt_daysLeft t)%num.
Proof.
  intros t.
  destruct (trackTotals_inputs st) as (tp & d & k & c & Et & Bt & Ed & Bd & Ek & Bk & Ec & Bc).
  assert (El : tt_daysLeft t = Num.max (Fin 0) (tt_dTotal t - tt_dayNow t + Fin 1)%num)
    by reflexivity.
  assert (En : tt_neededPerDay t =
               if (tt_daysLeft t >? Fin 0)%num then (tt_left t / tt_daysLeft t)%num
               else tt_left t)
    by reflexivity.
  fold t in Ed, Ek. rewrite En, El, Ed, Ek.
  destruct (daysLeft_value d k Bd Bk) as (n & -> & Bn & _).
  exists n. unfold Num.gtb; simpl.
  assert (Qle_bool n 0 = false) as ->.
  { destruct (Qle_bool n 0) eqn:E; [| reflexivity].
    apply Qle_bool_iff in E. lra. }
  simpl. repeat split; try reflexivity. lra.
Qed.

Lemma strict_eq_five v : strict_eq_num v (Fin 5) = true <-> is_five v.
Proof.
  unfold is_five. split.
  - destruct v as [| | |[| |q|]| | |]; simpl; try discriminate.
    intros E. apply Qeq_bool_iff in E. eauto.
  - intros (q & -> & E). simpl. now apply Qeq_bool_iff.
Qed.

(** C7. In [planResults] and in [trackTotals] the per-salah value is
    present exactly when the sessions-per-day value is the number 5 (the
    live [sessions] for the plan, the active plan's for the tracking), and
    it is then the per-day value of the same result divided by 5. *)
Theorem perSalah_iff_five_sessions st :
  let p := planResults st in
  let t := trackTotals st in
  (is_Some (pr_perSalah p) <-> is_five (sessions st))
  /\ (forall v, pr_perSalah p = Some v -> v = (pr_perDay p / Fin 5)%num)
  /\ (~ is_five (sessions st) -> pr_perSalah p = None)
  /\ (is_Some (tt_neededPerSalah t) <-> is_five (sessionsFromPlan st))
  /\ (forall v, tt_neededPerSalah t = Some v -> v = (tt_neededPerDay t / Fin 5)%num)
  /\ (~ is_five (sessionsFromPlan st) -> tt_neededPerSalah t = None).
Proof.
  intros p t.
  assert (Ep : pr_perSalah p =
               if strict_eq_num (sessions st) (Fin 5)
               then Some (pr_perDay p / Fin 5)%num else None) by reflexivity.
  assert (Et : tt_neededPerSalah t =
               if strict_eq_num (sessionsFromPlan st) (Fin 5)
               then Some (tt_neededPerDay t / Fin 5)%num else None) by reflexivity.
  rewrite Ep, Et.
  pose proof (strict_eq_five (sessions st)) as Fp.
  pose proof (strict_eq_five (sessionsFromPlan st)) as Ft.
  destruct (strict_eq_num (sessions st) (Fin 5));
    destruct (strict_eq_num (sessionsFromPlan st) (Fin 5));
    repeat split; intros;
    repeat match goal with
    | X : is_Some None |- _ => destruct X; discriminate
    | X : Some _ = Some _ |- _ => injection X as <-
    | X : None = Some _ |- _ => discriminate X
    | |- is_Some (Some _) => eexists; reflexivity
    end;
    try reflexivity; try tauto;
    try (exfalso; (apply Fp + apply Ft); assumption);
    try (exfalso; intuition discriminate).
Qed.

(** The product and the quotient of two finite numbers do not depend on
    how the rationals are written. *)
Lemma mul_fin_proper x x' y y' :
  x == x' -> y == y' -> (Fin x * Fin y)%num = (Fin x' * Fin y')%num.
Proof. intros Ex Ey. simpl. apply round_proper. now rewrite Ex, Ey. Qed.

Lemma div_fin_proper x x' y y' :
  x == x' -> y == y' -> (Fin x / Fin y)%num = (Fin x' / Fin y')%num.
Proof.
  intros Ex Ey. simpl.
  assert (Qeq_bool y 0 = Qeq_bool y' 0) as ->.
  { destruct (Qeq_bool y 0) eqn:A, (Qeq_bool y' 0) eqn:B; try reflexivity.
    - apply Qeq_bool_iff in A. rewrite Ey in A. apply Qeq_bool_iff in A.
      congruence.
    - apply Qeq_bool_iff in B. rewrite <- Ey in B. apply Qeq_bool_iff in B.
      congruence. }
  destruct (Qeq_bool y' 0).
  - unfold Num.inf_signed. now rewrite Ex.
  - apply round_proper. now rewrite Ex, Ey.
Qed.

(** C5. When the goal input is a number [g] of [1, 50] and the day input a
    number [d] of [1, 60], the clamps leave the inputs as they are and
    [planResults] (and the [totalPages] memo) hold [604 * g],
    [604 * g / d] and [perDay / sessions] as the operations [*] and [/]
    give them, with no rounding to a whole number; for a whole goal the
    total is [604 * g] exactly. *)
Theorem planResults_exact st (g d : Q) :
  Number (effectiveGoal st) = Fin g -> 1 <= g <= 50 ->
  Number (effectiveDays st) = Fin d -> 1 <= d <= 60 ->
  let p := planResults st in
  totalPages st =n= (QURAN_PAGES * Fin g)%num
  /\ pr_total p =n= (QURAN_PAGES * Fin g)%num
  /\ pr_perDay p =n= (QURAN_PAGES * Fin g / Fin d)%num
  /\ pr_perDay p = (pr_total p / pr_d p)%num
  /\ pr_d p =n= Fin d
  /\ pr_perSession p = (pr_perDay p / Number (sessions st))%num
  /\ (forall z : Z, g == inject_Z z ->
      totalPages st =n= Fin (604 * g) /\ pr_total p =n= Fin (604 * g)).
Proof.
  intros Eg Bg Ed Bd p.
  pose proof (clamp_inside g 1 50 Bg) as Cg.
  pose proof (clamp_inside d 1 60 Bd) as Cd.
  assert (Et : pr_total p = (QURAN_PAGES * clamp (Number (effectiveGoal st)) (Fin 1) (Fin 50))%num)
    by reflexivity.
  assert (Ett : totalPages st = pr_total p) by reflexivity.
  assert (Ep : pr_perDay p = (pr_total p / pr_d p)%num) by reflexivity.
  assert (Epd : pr_d p = clamp (Number (effectiveDays st)) (Fin 1) (Fin 60))
    by reflexivity.
  assert (Es : pr_perSession p = (pr_perDay p / Number (sessions st))%num)
    by reflexivity.
  rewrite Eg in Et. rewrite Ed in Epd.
  destruct (clamp (Fin g) (Fin 1) (Fin 50)) as [| |g'|]; try contradiction.
  destruct (clamp (Fin d) (Fin 1) (Fin 60)) as [| |d'|]; try contradiction.
  simpl in Cg, Cd.
  assert (T : pr_total p = (QURAN_PAGES * Fin g)%num).
  { rewrite Et. unfold QURAN_PAGES. apply mul_fin_proper; [reflexivity | exact Cg]. }
  destruct (mul_small 604 g) as (t & Emul & Rt); [unfold small; lra |].
  assert (D : pr_perDay p = (QURAN_PAGES * Fin g / Fin d)%num).
  { rewrite Ep, T, Epd. unfold QURAN_PAGES. rewrite Emul.
    apply div_fin_proper; [reflexivity | exact Cd]. }
  split; [rewrite Ett, T; apply num_eq_refl |].
  split; [rewrite T; apply num_eq_refl |].
  split; [rewrite D; apply num_eq_refl |].
  split; [exact Ep |].
  split; [rewrite Epd; exact Cd |].
  split; [exact Es |].
  intros z Ez.
  assert (W : t == 604 * g).
  { apply (rounds_to_whole t (604 * g) (604 * z) Rt).
    rewrite inject_Z_mult, Ez. reflexivity. }
  rewrite Ett, T. unfold QURAN_PAGES. rewrite Emul. simpl. tauto.
Qed.

(** C6. In [onPage] mode [updateProgress] clamps the reported page into
    [1, 604] and stores [page - 1] when the active goal is the number 1;
    when the active goal is a number above 1 it stores
    [clamp(page - 1, 0, totalPages)]. *)
Theorem onPage_conversion now st ls :
  trackMode st = onPage ->
  let page := clamp (inputPage st) (Fin 1) QURAN_PAGES in
  let st' := (updateProgress now st ls).1 in
  (exists q, page = Fin q /\ 1 <= q <= 604)
  /\ (forall g, activeGoal st = VNum (Fin g) -> g == 1 ->
      pagesCompleted (progress st') = (page - Fin 1)%num)
  /\ (forall g, activeGoal st = VNum (Fin g) -> 1 < g ->
      pagesCompleted (progress st') = clamp (page - Fin 1)%num (Fin 0) (totalPages st)).
Proof.
  intros M page st'.
  assert (E : pagesCompleted (progress st') = updateProgress_pagesCompleted st)
    by reflexivity.
  rewrite E. unfold updateProgress_pagesCompleted. rewrite M.
  split; [apply clamp_range; lra |].
  split; intros g -> B; simpl.
  - apply Qeq_bool_iff in B. now rewrite B.
  - assert (Qeq_bool g 1 = false) as ->; [| reflexivity].
    destruct (Qeq_bool g 1) eqn:F; [| reflexivity].
    apply Qeq_bool_iff in F. lra.
Qed.

End Properties.

(** C5, at the default inputs: one completion in 30 days, 2 sessions. *)
Lemma planResults_exact_default :
  let p := @planResults silent_host initial_state in
  @totalPages silent_host initial_state =n= (QURAN_PAGES * Fin 1)%num
  /\ pr_total p =n= (QURAN_PAGES * Fin 1)%num
  /\ pr_perDay p =n= (QURAN_PAGES * Fin 1 / Fin 30)%num
  /\ pr_perDay p = (pr_total p / pr_d p)%num
  /\ pr_d p =n= Fin 30
  /\ pr_perSession p = (pr_perDay p / Fin 2)%num
  /\ (forall z : Z, 1 == inject_Z z ->
      @totalPages silent_host initial_state =n= Fin (604 * 1)
      /\ pr_total p =n= Fin (604 * 1)).
Proof.
  apply (@planResults_exact silent_host initial_state 1 30);
    [reflexivity | lra | reflexivity | lra].
Defined.

(** C6, the example of the specification: active goal 1 and reported
    page 100 give 99 completed pages. *)
Lemma onPage_goal_1_page_100 :
  pagesCompleted
    (progress (@updateProgress silent_host (Fin 0)
                 (setInputPage (Fin 100) initial_state) ∅).1)
  = Fin 99.
Proof.
  pose proof (@onPage_conversion silent_host (Fin 0)
                (setInputPage (Fin 100) initial_state) ∅ eq_refl) as (_ & E & _).
  rewrite (E 1); [vm_compute; reflexivity | reflexivity | reflexivity].
Defined.

Section Handlers.
Context `{!Host}.
Import JS.

(** ** The history log *)

(** Only [updateProgress] and [resetAll] write the history. *)
Lemma step_history_length w e :
  (length (history w.1) <= 10)%nat ->
  (length (history (step w e).1) <= 10)%nat.
Proof.
  destruct w as [st ls]. intros L.
  destruct e; simpl in *; try assumption.
  - lia.
  - rewrite length_take. lia.
Qed.

Lemma run_history_length es : forall w,
  (length (history w.1) <= 10)%nat ->
  (length (history (run w es).1) <= 10)%nat.
Proof.
  induction es as [|e es IH]; intros w L; simpl; [assumption |].
  apply IH. now apply step_history_length.
Qed.

(** The history restored from storage keeps at most 30 entries, so a
    restored log can be longer than 10 until the first update. *)
Lemma load_history_length ls st st' :
  load_history ls st = Ok st' ->
  (length (history st') <= Nat.max 30 (length (history st)))%nat.
Proof.
  unfold load_history.
  destruct (safeJsonParse (getItem ls LS_KEYS.history)) as [v|e]; simpl;
    [| discriminate].
  destruct v; intros [= <-]; simpl; try lia.
  rewrite length_take. lia.
Qed.

(** C3. Whatever the state the component starts from (the history it
    holds may come from storage) and whatever events came before, after
    an [updateProgress] the history has at most 10 entries and the entry
    this update made is at index 0; the bound then holds after every
    later event. *)
Theorem history_bounded_newest_first w es now es' :
  let before := run w es in
  let after := step before (UpdateProgress now) in
  (length (history after.1) <= 10)%nat
  /\ history after.1 !! 0%nat
     = Some (HistoryItem_value (updateProgress_newItem now before.1))
  /\ (length (history (run after es').1) <= 10)%nat.
Proof.
  intros before after.
  assert (E : history after.1
              = take 10 (HistoryItem_value (updateProgress_newItem now before.1)
                         :: history before.1)).
  { unfold after. destruct before as [st ls]. reflexivity. }
  assert (L : (length (history after.1) <= 10)%nat).
  { rewrite E, length_take. lia. }
  split; [exact L |]. split.
  - rewrite E. reflexivity.
  - now apply run_history_length.
Qed.

(** ** Reset *)

(** C9. After [resetAll] the keys [plan], [progress], [history] and
    [ramadanDay] are absent from storage, every other key is untouched,
    and every field of the state has its initial value; the two fields
    that the handler does not write, the theme and the open tab, keep
    theirs. *)
Theorem resetAll_restores_defaults st ls :
  let w := resetAll st ls in
  getItem w.2 LS_KEYS.plan = None
  /\ getItem w.2 LS_KEYS.progress = None
  /\ getItem w.2 LS_KEYS.history = None
  /\ getItem w.2 LS_KEYS.ramadanDay = None
  /\ (forall k, k <> LS_KEYS.plan -> k <> LS_KEYS.progress ->
                k <> LS_KEYS.history -> k <> LS_KEYS.ramadanDay ->
                getItem w.2 k = getItem ls k)
  /\ w.1 = setTab (tab st) (setTheme (theme st) initial_state)
  /\ plan w.1 = None
  /\ progress w.1 = {| pagesCompleted := Fin 0; lastUpdatedAt := VNull |}
  /\ history w.1 = []
  /\ ramadanDay w.1 = Fin 1
  /\ effectiveGoal w.1 = VNum (Fin 1)
  /\ effectiveDays w.1 = VNum (Fin 30)
  /\ sessions w.1 = VNum (Fin 2).
Proof.
  intros w. unfold w, resetAll, getItem, removeItem. cbn [fst snd].
  repeat split; try reflexivity.
  - rewrite !lookup_delete_ne by done. apply lookup_delete_eq.
  - rewrite !lookup_delete_ne by done. apply lookup_delete_eq.
  - rewrite !lookup_delete_ne by done. apply lookup_delete_eq.
  - apply lookup_delete_eq.
  - intros k N1 N2 N3 N4.
    rewrite !lookup_delete_ne by congruence. reflexivity.
Qed.

(** ** Loading *)

Lemma safeJsonParse_total o : exists v, safeJsonParse o = Ok v.
Proof.
  unfold safeJsonParse. destruct o as [s|]; simpl; [| eauto].
  destruct (String.eqb s EmptyString); simpl; [eauto |].
  destruct (JSON_parse s); simpl; eauto.
Qed.

Lemma safeJsonParse_unreadable ls k :
  unreadable ls k -> safeJsonParse (getItem ls k) = Ok VNull.
Proof.
  unfold safeJsonParse.
  intros [-> | [-> | (s & e & -> & E)]]; simpl; try reflexivity.
  destruct (String.eqb s EmptyString); simpl; [reflexivity |].
  now rewrite E.
Qed.

(** Reading a property of a truthy value does not throw. *)
Lemma get_prop_truthy v k : truthy v = true -> exists x, get_prop v k = Ok x.
Proof. destruct v; simpl; try discriminate; eauto. Qed.

(** Each loader returns, and returns the state it was given or one
    written by its own setters. *)
Ltac loader_same :=
  eexists; split; [reflexivity | left; reflexivity].
Ltac loader_set :=
  eexists; split; [reflexivity | right; repeat eexists].

Lemma load_plan_cases ls st :
  exists st', load_plan ls st = Ok st'
    /\ (st' = st \/ exists gk dt sp, st' = load_adopt_plan gk dt sp st).
Proof.
  unfold load_plan.
  destruct (safeJsonParse_total (getItem ls LS_KEYS.plan)) as (v & ->). simpl.
  destruct (truthy v) eqn:T; [| loader_same].
  destruct (get_prop_truthy v "goalKhatmah" T) as (gk & ->). simpl.
  destruct (truthy gk); [| loader_same].
  destruct (get_prop_truthy v "daysTotal" T) as (dt & ->). simpl.
  destruct (truthy dt); [| loader_same].
  destruct (get_prop_truthy v "sessionsPerDay" T) as (sp & ->). simpl.
  destruct (truthy sp); [loader_set | loader_same].
Qed.

Lemma load_progress_cases ls st :
  exists st', load_progress ls st = Ok st'
    /\ (st' = st \/ exists p, st' = setProgress p st).
Proof.
  unfold load_progress.
  destruct (safeJsonParse_total (getItem ls LS_KEYS.progress)) as (v & ->). simpl.
  destruct (truthy v) eqn:T; [| loader_same].
  destruct (get_prop_truthy v "pagesCompleted" T) as (pc & ->). simpl.
  destruct pc; try loader_same.
  destruct (get_prop_truthy v "lastUpdatedAt" T) as (lu & ->). simpl.
  loader_set.
Qed.

Lemma load_history_cases ls st :
  exists st', load_history ls st = Ok st'
    /\ (st' = st \/ exists l, st' = setHistory l st).
Proof.
  unfold load_history.
  destruct (safeJsonParse_total (getItem ls LS_KEYS.history)) as (v & ->). simpl.
  destruct v; try loader_same. loader_set.
Qed.

Lemma load_ramadanDay_cases ls st :
  load_ramadanDay ls st = st
  \/ exists n, load_ramadanDay ls st = setRamadanDay n st.
Proof. unfold load_ramadanDay. destruct (_ && _); eauto. Qed.

Lemma load_plan_unreadable ls st :
  unreadable ls LS_KEYS.plan -> load_plan ls st = Ok st.
Proof.
  intros U. unfold load_plan. now rewrite (safeJsonParse_unreadable _ _ U).
Qed.

Lemma load_progress_unreadable ls st :
  unreadable ls LS_KEYS.progress -> load_progress ls st = Ok st.
Proof.
  intros U. unfold load_progress. now rewrite (safeJsonParse_unreadable _ _ U).
Qed.

Lemma load_history_unreadable ls st :
  unreadable ls LS_KEYS.history -> load_history ls st = Ok st.
Proof.
  intros U. unfold load_history. now rewrite (safeJsonParse_unreadable _ _ U).
Qed.


(** A missing day, or one that does not convert to a number, is ignored. *)
Lemma load_ramadanDay_default ls st :
  getItem ls LS_KEYS.ramadanDay = None
  \/ (exists s, getItem ls LS_KEYS.ramadanDay = Some s
                /\ Num.isNaN (StringToNumber s) = true) ->
  load_ramadanDay ls st = st.
Proof.
  unfold load_ramadanDay.
  intros [-> | (s & -> & N)]; simpl; [reflexivity |].
  now rewrite N.
Qed.


Lemma load_adopt_plan_history gk dt sp st :
  history (load_adopt_plan gk dt sp st) = history st.
Proof.
  unfold load_adopt_plan.
  destruct (goal_preset_of gk), (days_preset_of dt); reflexivity.
Qed.

Lemma load_adopt_plan_ramadanDay gk dt sp st :
  ramadanDay (load_adopt_plan gk dt sp st) = ramadanDay st.
Proof.
  unfold load_adopt_plan.
  destruct (goal_preset_of gk), (days_preset_of dt); reflexivity.
Qed.



Lemma load_theme_cases ls st :
  load_theme ls st = st \/ exists t, load_theme ls st = setTheme t st.
Proof.
  unfold load_theme.
  destruct (strict_eq_str _ "light"); [eauto |].
  destruct (strict_eq_str _ "dark"); eauto.
Qed.

(** Splits the state returned by a loader into the cases of its lemma. *)
Ltac loader_cases C :=
  match type of C with
  | _ \/ _ =>
      let C' := fresh "C" in
      destruct C as [C | C']; [| loader_cases C']
  | exists _, _ =>
      let x := fresh "x" in
      destruct C as [x C]; loader_cases C
  | _ => idtac
  end.

Arguments load_adopt_plan : simpl never.

Ltac loader_subst :=
  repeat match goal with
  | E : load_ramadanDay _ _ = _ |- _ => rewrite E; clear E
  end;
  subst.


(** ** The bounds on the stored progress and on the day cursor *)

(** A stored progress is restored as it is: the load effect applies no
    clamp to it. *)
Lemma load_progress_as_stored ls st s n lu :
  getItem ls LS_KEYS.progress = Some s -> s <> EmptyString ->
  JSON_parse s
  = Ok (VObj [("pagesCompleted", VNum n); ("lastUpdatedAt", lu)]%string) ->
  exists st', load ls st = Ok st' /\ pagesCompleted (progress st') = n.
Proof.
  intros G N P. unfold load.
  destruct (load_plan_cases ls (load_theme ls st)) as (st1 & -> & _). simpl.
  assert (E2 : load_progress ls st1
               = Ok (setProgress {| pagesCompleted := n;
                                    lastUpdatedAt := coalesce lu VNull |} st1)).
  { unfold load_progress, safeJsonParse. rewrite G. simpl.
    destruct (String.eqb_spec s EmptyString) as [|_]; [contradiction |].
    simpl. rewrite P. reflexivity. }
  rewrite E2. simpl.
  destruct (load_history_cases ls
              (setProgress {| pagesCompleted := n;
                              lastUpdatedAt := coalesce lu VNull |} st1))
    as (st3 & -> & C3). simpl.
  eexists. split; [reflexivity |].
  pose proof (load_ramadanDay_cases ls st3) as C4.
  loader_cases C3; loader_cases C4; loader_subst; reflexivity.
Qed.

(** A stored day is restored when it converts to a positive number,
    whatever the day total of the plan. *)
Lemma load_ramadanDay_as_stored ls st s q :
  getItem ls LS_KEYS.ramadanDay = Some s -> StringToNumber s = Fin q ->
  0 < q ->
  exists st', load ls st = Ok st' /\ ramadanDay st' = Fin q.
Proof.
  intros G E L. unfold load.
  destruct (load_plan_cases ls (load_theme ls st)) as (st1 & -> & _). simpl.
  destruct (load_progress_cases ls st1) as (st2 & -> & _). simpl.
  destruct (load_history_cases ls st2) as (st3 & -> & _). simpl.
  eexists. split; [reflexivity |].
  unfold load_ramadanDay. rewrite G. simpl. rewrite E.
  unfold Num.gtb. simpl.
  assert (Qle_bool q 0 = false) as ->; [| reflexivity].
  destruct (Qle_bool q 0) eqn:F; [| reflexivity].
  apply Qle_bool_iff in F. lra.
Qed.

(** [savePlan] writes neither the progress nor the day cursor. *)
Lemma savePlan_keeps_progress_and_day st ls :
  progress (savePlan st ls).1 = progress st
  /\ ramadanDay (savePlan st ls).1 = ramadanDay st.
Proof. split; reflexivity. Qed.

(** C2, as the code has it. [updateProgress] stores a number of
    [0, totalPages], where [totalPages] is [604 * g] for the live goal
    input clamped to a [g] of [1, 50] (exactly 604 times a whole [g]): in
    [readPages] mode the input clamped into that interval, in [onPage]
    mode the page before the clamped page, clamped into that interval
    unless the active goal is 1. The update leaves [totalPages] as it
    is, and [g] is the goal of the active plan when no plan is saved.
    [savePlan] leaves the stored progress as it is. In every state
    [trackTotals] reads [completed] as the stored value clamped into
    [0, totalPages]. *)
Theorem pagesCompleted_clamped_on_update_and_read now st ls :
  let st' := (updateProgress now st ls).1 in
  (exists g t p,
      clamp (Number (effectiveGoal st)) (Fin 1) (Fin 50) = Fin g
      /\ 1 <= g <= 50
      /\ totalPages st = (QURAN_PAGES * Fin g)%num
      /\ totalPages st = Fin t
      /\ (forall z : Z, g == inject_Z z -> t == 604 * g)
      /\ totalPages st' = totalPages st
      /\ pagesCompleted (progress st') = Fin p /\ 0 <= p <= t
      /\ (trackMode st = readPages ->
          pagesCompleted (progress st')
          = clamp (inputReadPages st) (Fin 0) (totalPages st))
      /\ (trackMode st = onPage ->
          pagesCompleted (progress st')
          = let page := clamp (inputPage st) (Fin 1) QURAN_PAGES in
            if strict_eq_num (activeGoal st) (Fin 1) then (page - Fin 1)%num
            else clamp (page - Fin 1)%num (Fin 0) (totalPages st))
      /\ (plan st = None -> activeGoal st' = VNum (Fin g)))
  /\ progress (savePlan st ls).1 = progress st
  /\ tt_completed (trackTotals st)
     = clamp (pagesCompleted (progress st)) (Fin 0) (totalPages st)
  /\ (exists t c,
        totalPages st = Fin t
        /\ tt_completed (trackTotals st) = Fin c /\ 0 <= c <= t).
Proof.
  intros st'.
  destruct (totalPages_range st) as (g & t & Eg & Bg & Et & Bt & Rt).
  split; [| split; [reflexivity | split; [reflexivity |]]].
  - assert (E : pagesCompleted (progress st') = updateProgress_pagesCompleted st)
      by reflexivity.
    assert (R : exists p, updateProgress_pagesCompleted st = Fin p /\ 0 <= p <= t).
    { unfold updateProgress_pagesCompleted, QURAN_PAGES. rewrite Et.
      destruct (trackMode st).
      - destruct (clamp_range (Number (VNum (inputPage st))) 1 604)
          as (q & -> & Bq); [lra |].
        destruct (strict_eq_num (activeGoal st) (Fin 1)).
        + destruct (sub_small q 1) as (r & -> & Rr); [unfold small; lra |].
          int_bounds Rr 0%Z 603%Z.
          exists r. split; [reflexivity | lra].
        + apply clamp_range. lra.
      - apply clamp_range. lra. }
    destruct R as (p & Ep & Bp).
    exists g, t, p. rewrite E, Ep.
    split; [exact Eg |]. split; [exact Bg |].
    split; [unfold totalPages; now rewrite Eg |].
    split; [exact Et |].
    split.
    { intros z Ez. apply (rounds_to_whole t (604 * g) (604 * z) Rt).
      rewrite inject_Z_mult, Ez. reflexivity. }
    split; [reflexivity |]. split; [reflexivity |]. split; [exact Bp |].
    split; [| split].
    + intros M. rewrite <- Ep. unfold updateProgress_pagesCompleted.
      rewrite M. reflexivity.
    + intros M. rewrite <- Ep. unfold updateProgress_pagesCompleted.
      rewrite M. reflexivity.
    + intros N. unfold activeGoal. change (plan st') with (plan st).
      rewrite N. simpl. change (effectiveGoal st') with (effectiveGoal st).
      now rewrite Eg.
  - destruct (trackTotals_inputs st)
      as (t' & d & k & c & Et' & _ & _ & _ & _ & _ & Ec & Bc).
    exists t', c. auto.
Qed.

(** Without a saved plan the day total of the active plan is a number of
    [1, 60]; [savePlan] saves such a number. *)
Lemma daysTotalFromPlan_live st :
  plan st = None ->
  exists d, Number (daysTotalFromPlan st) = Fin d /\ 1 <= d <= 60.
Proof.
  intros N. unfold daysTotalFromPlan. rewrite N. simpl.
  apply clamp_range. lra.
Qed.

Lemma daysTotalFromPlan_saved st ls :
  exists d, Number (daysTotalFromPlan (savePlan st ls).1) = Fin d
    /\ 1 <= d <= 60.
Proof.
  unfold daysTotalFromPlan, savePlan. simpl.
  apply clamp_range. lra.
Qed.

(** C4, as the code has it. [setRamadanDayPersist] stores the entered day
    clamped into [1, daysTotal] for the day total of the active plan, when
    that is a number not below 1; [savePlan] leaves the day as it is. In
    every state, [trackTotals] reads [dTotal] as the day total of the
    active plan clamped into [1, 60] and [dayNow] as the stored day
    clamped into [1, dTotal]. The day total of the active plan is a
    number of [1, 60] while no plan is saved and after [savePlan]. *)
Theorem ramadanDay_clamped_when_set n st ls :
  let t := trackTotals st in
  (forall d : Q, Number (daysTotalFromPlan st) = Fin d -> 1 <= d ->
     ramadanDay (setRamadanDayPersist n st ls).1 = clamp n (Fin 1) (Fin d)
     /\ exists k, ramadanDay (setRamadanDayPersist n st ls).1 = Fin k
                  /\ 1 <= k <= d)
  /\ ramadanDay (savePlan st ls).1 = ramadanDay st
  /\ tt_dTotal t = clamp (Number (daysTotalFromPlan st)) (Fin 1) (Fin 60)
  /\ tt_dayNow t = clamp (ramadanDay st) (Fin 1) (tt_dTotal t)
  /\ (exists k dT,
        tt_dayNow t = Fin k /\ tt_dTotal t = Fin dT
        /\ 1 <= k <= dT /\ dT <= 60)
  /\ (plan st = None ->
      exists d, Number (daysTotalFromPlan st) = Fin d /\ 1 <= d <= 60)
  /\ (exists d, Number (daysTotalFromPlan (savePlan st ls).1) = Fin d
                /\ 1 <= d <= 60).
Proof.
  intros t.
  split; [| split; [reflexivity | split; [reflexivity | split; [reflexivity |]]]].
  - intros d E L. unfold setRamadanDayPersist. cbn [fst]. rewrite E.
    change (ramadanDay (setRamadanDay ?v st)) with v.
    split; [reflexivity | now apply clamp_range].
  - split; [| split].
    + destruct (trackTotals_inputs st)
        as (t' & dT & k & c & _ & _ & EdT & BdT & Ek & Bk & _).
      exists k, dT. repeat split; try assumption; lra.
    + apply daysTotalFromPlan_live.
    + apply daysTotalFromPlan_saved.
Qed.

(** The traces that refute C2 and C4 as stated, in every host and over
    every storage. *)
Lemma update_under_smaller_saved_goal ls :
  let st :=
    (run (initial_state, ls)
       [SavePlan; SetGoalPreset goal_2; SetTrackMode readPages;
        SetInputReadPages (Fin 1000); UpdateProgress (Fin 0)]).1 in
  activeGoal st = VNum (Fin 1)
  /\ totalPages st = Fin 1208
  /\ pagesCompleted (progress st) = Fin 1000.
Proof. repeat split; vm_compute; reflexivity. Qed.

Lemma smaller_goal_saved_after_progress ls :
  let st :=
    (run (initial_state, ls)
       [SetGoalPreset goal_2; SetTrackMode readPages;
        SetInputReadPages (Fin 1000); UpdateProgress (Fin 0);
        SetGoalPreset goal_1; SavePlan]).1 in
  activeGoal st = VNum (Fin 1)
  /\ totalPages st = Fin 604
  /\ pagesCompleted (progress st) = Fin 1000.
Proof. repeat split; vm_compute; reflexivity. Qed.

Lemma fewer_days_saved_after_day ls :
  let st :=
    (run (initial_state, ls)
       [SetRamadanDay (Fin 30); SetDaysPreset days_custom;
        SetCustomDays (Fin 10); SavePlan]).1 in
  daysTotalFromPlan st = VNum (Fin 10) /\ ramadanDay st = Fin 30.
Proof. repeat split; vm_compute; reflexivity. Qed.

End Handlers.

(** C2, refuted as stated. First trace: a plan of one completion is saved,
    the goal input is then set to two completions and 1000 pages are
    reported as read; the active plan is the saved one, of 604 pages, and
    the update stores 1000 (the total of the live inputs is 1208). Second
    trace: with two completions as the goal 1000 pages are reported; the
    goal is then set back to one completion and the plan is saved; the
    total is 604 pages and the stored progress is still 1000. *)
Lemma pagesCompleted_exceeds_saved_total :
  (let st :=
     demo [SavePlan; SetGoalPreset goal_2; SetTrackMode readPages;
           SetInputReadPages (Fin 1000); UpdateProgress (Fin 0)] in
   plan st = Some {| goalKhatmah := VNum (Fin 1); daysTotal := VNum (Fin 30);
                     sessionsPerDay := VNum (Fin 2) |}
   /\ @activeGoal silent_host st = VNum (Fin 1)
   /\ (QURAN_PAGES * Fin 1)%num = Fin 604
   /\ @totalPages silent_host st = Fin 1208
   /\ pagesCompleted (progress st) = Fin 1000
   /\ ~ 1000 <= 604)
  /\ (let st :=
        demo [SetGoalPreset goal_2; SetTrackMode readPages;
              SetInputReadPages (Fin 1000); UpdateProgress (Fin 0);
              SetGoalPreset goal_1; SavePlan] in
      plan st = Some {| goalKhatmah := VNum (Fin 1); daysTotal := VNum (Fin 30);
                        sessionsPerDay := VNum (Fin 2) |}
      /\ @activeGoal silent_host st = VNum (Fin 1)
      /\ @totalPages silent_host st = Fin 604
      /\ pagesCompleted (progress st) = Fin 1000
      /\ ~ 1000 <= 604).
Proof.
  split; repeat split; try (vm_compute; reflexivity); lra.
Qed.

(** C4, at the live inputs: the day 45 entered while the plan has 30
    days is stored as 30. *)
Lemma ramadanDay_clamped_default :
  ramadanDay (@setRamadanDayPersist silent_host (Fin 45) initial_state ∅).1
  = Fin 30
  /\ tt_dTotal (@trackTotals silent_host initial_state) = Fin 30
  /\ tt_dayNow (@trackTotals silent_host initial_state) = Fin 1.
Proof.
  pose proof (@ramadanDay_clamped_when_set silent_host (Fin 45) initial_state ∅)
    as (S & _ & D & N & _).
  split; [| split].
  - apply (S 30); [reflexivity | lra].
  - rewrite D. reflexivity.
  - rewrite N, D. reflexivity.
Defined.

(** C4, refuted as stated. The day is set to 30 under the default plan of
    30 days; the day input is then changed to 10 and the plan is saved.
    The active plan has 10 days and the day cursor is still 30. *)
Lemma ramadanDay_exceeds_saved_daysTotal :
  let st :=
    demo [SetRamadanDay (Fin 30); SetDaysPreset days_custom;
          SetCustomDays (Fin 10); SavePlan] in
  plan st = Some {| goalKhatmah := VNum (Fin 1); daysTotal := VNum (Fin 10);
                    sessionsPerDay := VNum (Fin 2) |}
  /\ @daysTotalFromPlan silent_host st = VNum (Fin 10)
  /\ ramadanDay st = Fin 30
  /\ ~ 30 <= 10.
Proof.
  repeat split; try (vm_compute; reflexivity). lra.
Qed.

(** ** The examples of the specification *)

Ltac by_computation :=
  intros; repeat match goal with |- _ /\ _ => split end;
  vm_compute; reflexivity.

(** One completion in 30 days with 2 sessions: 604 pages, 20.133 a day
    shown as 20, 10.066 a session shown as 10, no per-salah value. *)
Example plan_1_30_2 :
  let p := @planResults silent_host initial_state in
  pr_total p = Fin 604
  /\ pr_perDay p = (Fin 604 / Fin 30)%num
  /\ roundSmart (pr_perDay p) = Fin 20
  /\ roundSmart (pr_perSession p) = Fin 10
  /\ pr_perSalah p = None.
Proof. by_computation. Qed.

(** Two completions in 29 days with 5 sessions: 1208 pages, 41.655 a
    day, 8.331 a salah shown as 8. *)
Example plan_2_29_5 :
  let p :=
    @planResults silent_host
      (demo [SetGoalPreset goal_2; SetDaysPreset days_29; SetSessions sessions_5]) in
  pr_total p = Fin 1208
  /\ pr_perDay p = (Fin 1208 / Fin 29)%num
  /\ roundSmart (pr_perDay p) = Fin 42
  /\ (exists v, pr_perSalah p = Some v /\ v = (Fin 1208 / Fin 29 / Fin 5)%num
                /\ roundSmart v = Fin 8).
Proof.
  intros p. do 3 (split; [vm_compute; reflexivity |]).
  eexists. split; [reflexivity |]. split; vm_compute; reflexivity.
Qed.

(** The status at the boundaries of the tolerance band. *)
Example status_at_the_boundaries :
  tt_idealCompletedByNow (@trackTotals silent_host (two_days_with 0)) = Fin 302
  /\ tt_status (@trackTotals silent_host (two_days_with 312)) = ontrack
  /\ tt_status (@trackTotals silent_host (two_days_with (623 # 2))) = slight
  /\ tt_status (@trackTotals silent_host (two_days_with 292)) = slight
  /\ tt_status (@trackTotals silent_host (two_days_with (583 # 2))) = behind.
Proof. by_computation. Qed.

(** The status is decided on the rounded numbers. With 28 days, on day 21
    the ideal is [604 / 28 * 21], which is [453 + 2 ^ -44] as a binary64
    number: 463 pages are short of the band by [2 ^ -44] and 443 pages are
    below it. With three completions in 21 days, on day 21 the ideal is
    [1812 / 21 * 21], which is [1812 + 2 ^ -42]: 1802 pages, 10 short of
    the total, are below the band. *)
Example status_of_rounded_numbers :
  let days_28 := [SetDaysPreset days_custom; SetCustomDays (Fin 28)] in
  let goal_3_days_21 :=
    [SetGoalPreset goal_3; SetDaysPreset days_custom; SetCustomDays (Fin 21)] in
  tt_idealCompletedByNow (@trackTotals silent_host (reported days_28 21 463))
  =n= Fin (453 + (1 # 17592186044416))
  /\ tt_status (@trackTotals silent_host (reported days_28 21 463)) = slight
  /\ tt_status (@trackTotals silent_host (reported days_28 21 443)) = behind
  /\ tt_idealCompletedByNow
       (@trackTotals silent_host (reported goal_3_days_21 21 1802))
     =n= Fin (1812 + (1 # 4398046511104))
  /\ tt_left (@trackTotals silent_host (reported goal_3_days_21 21 1802))
     = Fin 10
  /\ tt_status (@trackTotals silent_host (reported goal_3_days_21 21 1802))
     = behind.
Proof. by_computation. Qed.

(** When every page is completed the percentage is 100 and nothing is
    left. *)
Example all_pages_completed :
  let t := @trackTotals silent_host (two_days_with 604) in
  tt_completed t = Fin 604 /\ tt_left t = Fin 0 /\ tt_pct t = Fin 100.
Proof. by_computation. Qed.

(** With two completions as the goal the page 100 still gives 99, inside
    [0, 1208]. *)
Example onPage_goal_2_page_100 :
  pagesCompleted
    (progress (demo [SetGoalPreset goal_2; SavePlan; SetInputPage (Fin 100);
                     UpdateProgress (Fin 0)]))
  = Fin 99.
Proof. vm_compute. reflexivity. Qed.

(** Eleven updates leave ten entries. *)
Example eleven_updates :
  length (history (demo (repeat (UpdateProgress (Fin 0)) 11))) = 10%nat.
Proof. vm_compute. reflexivity. Qed.

(** * Further properties of the code *)

(** ** [clamp] and [roundSmart] *)

(** X1. [clamp] into a finite interval, case by case: [NaN] and everything
    below the interval give the lower bound, everything above gives the
    upper bound, and a value of the interval is returned unchanged. *)
Theorem clamp_cases lo hi :
  lo <= hi ->
  clamp NaN (Fin lo) (Fin hi) = Fin lo
  /\ clamp NegInf (Fin lo) (Fin hi) =n= Fin lo
  /\ clamp PosInf (Fin lo) (Fin hi) = Fin hi
  /\ (forall q, q < lo -> clamp (Fin q) (Fin lo) (Fin hi) =n= Fin lo)
  /\ (forall q, hi < q -> clamp (Fin q) (Fin lo) (Fin hi) =n= Fin hi)
  /\ (forall q, lo <= q <= hi -> clamp (Fin q) (Fin lo) (Fin hi) =n= Fin q).
Proof.
  intros L. unfold clamp; simpl. repeat split.
  - qcases; simpl; lra.
  - intros q B. qcases; simpl; qcases; simpl; lra.
  - intros q B. qcases; simpl; qcases; simpl; lra.
  - intros q B. now apply clamp_inside.
Qed.

Lemma clamp_cases_1_60 :
  clamp NaN (Fin 1) (Fin 60) = Fin 1
  /\ clamp NegInf (Fin 1) (Fin 60) =n= Fin 1
  /\ clamp PosInf (Fin 1) (Fin 60) = Fin 60
  /\ (forall q, q < 1 -> clamp (Fin q) (Fin 1) (Fin 60) =n= Fin 1)
  /\ (forall q, 60 < q -> clamp (Fin q) (Fin 1) (Fin 60) =n= Fin 60)
  /\ (forall q, 1 <= q <= 60 -> clamp (Fin q) (Fin 1) (Fin 60) =n= Fin q).
Proof. apply (clamp_cases 1 60). lra. Defined.

Lemma clamp_idempotent_1_60 :
  clamp (clamp (Fin 75) (Fin 1) (Fin 60)) (Fin 1) (Fin 60)
  =n= clamp (Fin 75) (Fin 1) (Fin 60).
Proof. apply (clamp_idempotent (Fin 75) 1 60). lra. Defined.

(** X3. [clamp] is monotone: a larger input never gives a smaller
    result. *)
Theorem clamp_monotone lo hi x y :
  lo <= hi -> x <= y ->
  exists a b, clamp (Fin x) (Fin lo) (Fin hi) = Fin a
    /\ clamp (Fin y) (Fin lo) (Fin hi) = Fin b /\ a <= b.
Proof.
  intros L B. unfold clamp; simpl.
  qcases; simpl; qcases; simpl; eexists _, _;
    (split; [reflexivity | split; [reflexivity | lra]]).
Qed.

Lemma clamp_monotone_1_60 :
  exists a b, clamp (Fin 0) (Fin 1) (Fin 60) = Fin a
    /\ clamp (Fin 75) (Fin 1) (Fin 60) = Fin b /\ a <= b.
Proof. apply (clamp_monotone 1 60 0 75); lra. Defined.

(** X4. [roundSmart] of a finite number is a whole number that is not
    negative: 0 for every input below one half, and otherwise the
    nearest whole number, a half going up. [roundSmart(NaN)] is [NaN]. *)
Theorem roundSmart_nearest q :
  roundSmart NaN = NaN
  /\ exists z : Z,
       roundSmart (Fin q) =n= Fin (inject_Z z)
       /\ (0 <= z)%Z
       /\ (q < 1 # 2 -> z = 0%Z)
       /\ (1 # 2 <= q -> q - (1 # 2) < inject_Z z <= q + (1 # 2)).
Proof.
  split; [reflexivity |].
  unfold roundSmart, Num.round, Num.max, Num.leb.
  pose proof (Qfloor_le (q + (1 # 2))) as Lo.
  pose proof (Qlt_floor (q + (1 # 2))) as Hi.
  set (z := Qfloor (q + (1 # 2))) in *. clearbody z.
  rewrite inject_Z_plus in Hi. change (inject_Z 1) with 1 in Hi.
  destruct (Z_lt_le_dec z 0) as [Neg | Pos].
  - assert (Nz : inject_Z z <= -1).
    { change (-1) with (inject_Z (-1)). rewrite <- Zle_Qle. lia. }
    exists 0%Z. change (inject_Z 0) with 0.
    split; [qcases; simpl; lra |].
    split; [lia |].
    split; [reflexivity |].
    intros B. lra.
  - assert (Nz : 0 <= inject_Z z).
    { change 0 with (inject_Z 0). now rewrite <- Zle_Qle. }
    exists z.
    split; [qcases; simpl; lra |].
    split; [assumption |].
    split; [| intros B; lra].
    intros B.
    assert (Hz : inject_Z z < 1) by lra.
    change 1 with (inject_Z 1) in Hz. rewrite <- Zlt_Qlt in Hz. lia.
Qed.

Section Calculators.
Context `{!Host}.
Import JS.

(** X5. [safeJsonParse] never throws. It returns [null] for a missing
    key, for an empty text and for a text that [JSON.parse] rejects, and
    what [JSON.parse] returns otherwise. *)
Theorem safeJsonParse_cases o :
  exists v, safeJsonParse o = Ok v
    /\ (o = None -> v = VNull)
    /\ (o = Some EmptyString -> v = VNull)
    /\ (forall s e, o = Some s -> JSON_parse s = Throw e -> v = VNull)
    /\ (forall s j, o = Some s -> s <> EmptyString -> JSON_parse s = Ok j ->
        v = j).
Proof.
  unfold safeJsonParse. destruct o as [s|]; simpl.
  - destruct (String.eqb_spec s EmptyString) as [-> | N]; simpl.
    + exists VNull. repeat split; intros; try reflexivity; congruence.
    + destruct (JSON_parse s) as [j|e] eqn:P; simpl.
      * exists j. repeat split; intros; try reflexivity; congruence.
      * exists VNull. repeat split; intros; try reflexivity; congruence.
  - exists VNull. repeat split; intros; try reflexivity; congruence.
Qed.

(** The fields of [trackTotals]: each is a finite number, the rounded
    result of the operation of the code on the fields before it. *)
Lemma trackTotals_values st :
  let t := trackTotals st in
  exists tp d k c l dl n r p i delta,
    (604 <= tp <= 30200 /\ 1 <= d <= 60 /\ 1 <= k <= d /\ 0 <= c <= tp)
    /\ (totalPages st = Fin tp /\ tt_dTotal t = Fin d
        /\ tt_dayNow t = Fin k /\ tt_completed t = Fin c)
    /\ (tt_left t = Fin l /\ rounds_to l (tp - c) /\ 0 <= l <= 30200)
    /\ (tt_daysLeft t = Fin dl /\ 1 <= dl <= 60
        /\ - (2 * eps) <= dl - (d - k + 1) <= 2 * eps)
    /\ (tt_neededPerDay t = Fin n /\ rounds_to n (l / dl))
    /\ (tt_pct t = Fin p /\ rounds_to r (c / tp) /\ rounds_to p (r * 100))
    /\ (tt_idealCompletedByNow t = Fin i
        /\ - (61 * eps) <= i - tp / d * k <= 61 * eps /\ 0 <= i <= 1812000)
    /\ (rounds_to delta (c - i)
        /\ tt_status t
           = (if Qle_bool 10 delta then ontrack
              else if Qle_bool (-10) delta then slight else behind)).
Proof.
  intros t.
  destruct (trackTotals_inputs st)
    as (tp & d & k & c & Et & Bt & Ed & Bd & Ek & Bk & Ec & Bc).
  fold t in Ed, Ek, Ec.
  assert (El : tt_left t = Num.max (Fin 0) (totalPages st - tt_completed t)%num)
    by reflexivity.
  assert (Edl : tt_daysLeft t
                = Num.max (Fin 0) (tt_dTotal t - tt_dayNow t + Fin 1)%num)
    by reflexivity.
  assert (En : tt_neededPerDay t
               = if (tt_daysLeft t >? Fin 0)%num
                 then (tt_left t / tt_daysLeft t)%num else tt_left t)
    by reflexivity.
  assert (Ep : tt_pct t
               = if (totalPages st === Fin 0)%num then Fin 0
                 else (tt_completed t / totalPages st * Fin 100)%num)
    by reflexivity.
  assert (Ei : tt_idealCompletedByNow t
               = (totalPages st / tt_dTotal t * tt_dayNow t)%num)
    by reflexivity.
  (* left *)
  destruct (sub_small tp c) as (l & El1 & Rl); [unfold small; lra |].
  int_bounds Rl 0%Z 30200%Z.
  assert (Bl : 0 <= l <= 30200) by lra.
  assert (El' : tt_left t = Fin l).
  { rewrite El, Et, Ec, El1. simpl.
    assert (Qle_bool 0 l = true) as -> by (apply Qle_bool_iff; lra).
    reflexivity. }
  (* daysLeft *)
  destruct (daysLeft_value d k Bd Bk) as (dl & Edl1 & Bdl & Rdl).
  assert (Edl' : tt_daysLeft t = Fin dl) by (now rewrite Edl, Ed, Ek).
  (* neededPerDay *)
  pose proof (div_bounds l dl) as Bq.
  destruct (div_small l dl) as (n & En1 & Rn); [lra | unfold small; lra |].
  assert (En' : tt_neededPerDay t = Fin n).
  { rewrite En, El', Edl', En1. unfold Num.gtb. simpl.
    assert (Qle_bool dl 0 = false) as ->; [| reflexivity].
    destruct (Qle_bool dl 0) eqn:E; [| reflexivity].
    apply Qle_bool_iff in E. lra. }
  (* pct *)
  assert (Bct : 0 <= c / tp <= 1).
  { split; [apply Qle_shift_div_l | apply Qle_shift_div_r]; lra. }
  destruct (div_small c tp) as (r & Er & Rr); [lra | unfold small; lra |].
  int_bounds Rr 0%Z 1%Z.
  destruct (mul_small r 100) as (p & Ep1 & Rp); [unfold small; lra |].
  assert (Ep' : tt_pct t = Fin p).
  { rewrite Ep, Et, Ec, Er, Ep1. simpl.
    assert (Qeq_bool tp 0 = false) as ->; [| reflexivity].
    destruct (Qeq_bool tp 0) eqn:E; [| reflexivity].
    apply Qeq_bool_iff in E. lra. }
  (* ideal and status *)
  destruct (ideal_value tp d k Bt Bd Bk) as (i & Ei1 & Ri & Bi).
  assert (Ei' : tt_idealCompletedByNow t = Fin i) by (now rewrite Ei, Et, Ed, Ek).
  destruct (status_value st c i Ec Ei') as (delta & _ & Rd & Es); [lra | lra |].
  exists tp, d, k, c, l, dl, n, r, p, i, delta.
  split; [exact (conj Bt (conj Bd (conj Bk Bc))) |].
  split; [exact (conj Et (conj Ed (conj Ek Ec))) |].
  split; [exact (conj El' (conj Rl Bl)) |].
  split; [exact (conj Edl' (conj Bdl Rdl)) |].
  split; [exact (conj En' Rn) |].
  split; [exact (conj Ep' (conj Rr Rp)) |].
  split; [exact (conj Ei' (conj Ri Bi)) |].
  exact (conj Rd Es).
Qed.

(** X6. The page accounting of [trackTotals]: [completed] is a number of
    [0, totalPages]; [left] is [totalPages - completed] as the
    subtraction gives it, not negative, at most [2 ^ -33] away from the
    difference and equal to it when both are whole numbers; the total is
    never 0, so [pct] is [completed / totalPages * 100], a number of
    [0, 100] that the clamp of the progress bar leaves unchanged. *)
Theorem trackTotals_accounting st :
  let t := trackTotals st in
  exists tp c l p,
    totalPages st = Fin tp /\ tt_completed t = Fin c
    /\ tt_left t = Fin l /\ tt_pct t = Fin p
    /\ 604 <= tp /\ 0 <= c <= tp
    /\ tt_left t = (totalPages st - tt_completed t)%num
    /\ 0 <= l /\ - eps <= l - (tp - c) <= eps
    /\ (forall a b : Z, tp == inject_Z a -> c == inject_Z b -> c + l == tp)
    /\ tt_pct t = (tt_completed t / totalPages st * Fin 100)%num
    /\ 0 <= p <= 100
    /\ clamp (tt_pct t) (Fin 0) (Fin 100) =n= tt_pct t.
Proof.
  intros t.
  destruct (trackTotals_values st)
    as (tp & d & k & c & l & dl & n & r & p & i & delta
        & (Bt & Bd & Bk & Bc) & (Et & Ed & Ek & Ec) & (El & Rl & Bl)
        & _ & _ & (Ep & Rr & Rp) & _).
  fold t in Ed, Ek, Ec, El, Ep.
  assert (Bct : 0 <= c / tp <= 1).
  { split; [apply Qle_shift_div_l | apply Qle_shift_div_r]; lra. }
  int_bounds Rr 0%Z 1%Z. int_bounds Rp 0%Z 100%Z.
  assert (Bp : 0 <= p <= 100) by lra.
  assert (Z : Qeq_bool tp 0 = false).
  { destruct (Qeq_bool tp 0) eqn:E; [| reflexivity].
    apply Qeq_bool_iff in E. lra. }
  exists tp, c, l, p.
  split; [exact Et |]. split; [exact Ec |]. split; [exact El |].
  split; [exact Ep |]. split; [lra |]. split; [exact Bc |].
  split.
  { change (tt_left t)
      with (Num.max (Fin 0) (totalPages st - tt_completed t)%num).
    rewrite Et, Ec.
    destruct (sub_small tp c) as (x & -> & Rx); [unfold small; lra |].
    int_bounds Rx 0%Z 30200%Z. simpl.
    assert (Qle_bool 0 x = true) as -> by (apply Qle_bool_iff; lra).
    reflexivity. }
  split; [lra |]. split; [apply Rl |].
  split.
  { intros a b Ea Eb.
    assert (W : l == tp - c).
    { apply (rounds_to_whole l (tp - c) (a - b) Rl).
      change (a - b)%Z with (a + - b)%Z.
      rewrite inject_Z_plus, inject_Z_opp, Ea, Eb. reflexivity. }
    lra. }
  split.
  { change (tt_pct t)
      with (if (totalPages st === Fin 0)%num then Fin 0
            else (tt_completed t / totalPages st * Fin 100)%num).
    rewrite Et. simpl. now rewrite Z. }
  split; [exact Bp |].
  rewrite Ep. now apply clamp_inside.
Qed.

(** X7. The pace of [trackTotals]: [daysLeft] counts the current day and
    is a number of [1, 60]; [neededPerDay] is [left / daysLeft], not
    negative, and read on each of the days left it makes up [left] to
    within [60 * 2 ^ -33] of a page. *)
Theorem neededPerDay_finishes st :
  let t := trackTotals st in
  exists n dl l,
    tt_neededPerDay t = Fin n /\ tt_daysLeft t = Fin dl
    /\ tt_left t = Fin l
    /\ tt_neededPerDay t = (tt_left t / tt_daysLeft t)%num
    /\ 1 <= dl <= 60 /\ 0 <= l /\ 0 <= n
    /\ - (60 * eps) <= n * dl - l <= 60 * eps.
Proof.
  intros t.
  destruct (trackTotals_values st)
    as (tp & d & k & c & l & dl & n & r & p & i & delta
        & _ & _ & (El & Rl & Bl) & (Edl & Bdl & _) & (En & Rn) & _).
  fold t in El, Edl, En.
  pose proof (div_bounds l dl) as Bq.
  int_bounds Rn 0%Z 30200%Z.
  destruct Rn as (Rn & _).
  assert (E : n * dl - l == (n - l / dl) * dl) by (field; lra).
  exists n, dl, l.
  split; [exact En |]. split; [exact Edl |]. split; [exact El |].
  split.
  { change (tt_neededPerDay t)
      with (if (tt_daysLeft t >? Fin 0)%num
            then (tt_left t / tt_daysLeft t)%num else tt_left t).
    rewrite Edl. unfold Num.gtb. simpl.
    assert (Qle_bool dl 0 = false) as ->; [| reflexivity].
    destruct (Qle_bool dl 0) eqn:F; [| reflexivity].
    apply Qle_bool_iff in F. lra. }
  split; [exact Bdl |]. split; [lra |]. split; [lra |].
  rewrite E. unfold eps in *. split; nra.
Qed.

(** The ideal without rounding never exceeds the total:
    [tp / d * k <= tp] for a day [k] of [1, d]. *)
Lemma ideal_at_most_total (tp d k : Q) :
  0 <= tp -> 1 <= d -> 1 <= k <= d -> 0 <= tp / d * k <= tp.
Proof.
  intros Bt Bd Bk.
  assert (E : tp / d * k == tp * (k / d)) by (field; lra).
  assert (0 <= k / d) by (apply Qle_shift_div_l; lra).
  assert (k / d <= 1) by (apply Qle_shift_div_r; lra).
  rewrite E. split; nra.
Qed.

(** X8. On the last day of the plan the ideal is the whole total to
    within [61 * 2 ^ -33] of a page, so the status is never [ontrack]: it
    is [slight] when at most 9.999 pages are left and [behind] when at
    least 10.001 are. *)
Theorem status_on_last_day st :
  let t := trackTotals st in
  tt_dayNow t =n= tt_dTotal t ->
  (exists tp i, totalPages st = Fin tp /\ tt_idealCompletedByNow t = Fin i
     /\ - (61 * eps) <= i - tp <= 61 * eps)
  /\ tt_status t <> ontrack
  /\ exists l, tt_left t = Fin l
       /\ (l <= 9999 # 1000 -> tt_status t = slight)
       /\ (10001 # 1000 <= l -> tt_status t = behind).
Proof.
  intros t.
  destruct (trackTotals_values st)
    as (tp & d & k & c & l & dl & n & r & p & i & delta
        & (Bt & Bd & Bk & Bc) & (Et & Ed & Ek & Ec) & (El & Rl & Bl)
        & _ & _ & _ & (Ei & Ri & Bi) & (Rd & Es)).
  fold t in Ed, Ek, Ec, El, Ei, Es. rewrite Ed, Ek, Es.
  simpl. intros E.
  assert (I : tp / d * k == tp) by (rewrite E; field; lra).
  destruct Rl as (Rl & _). destruct Rd as (Rd & _). unfold eps in *.
  assert (F10 : Qle_bool 10 delta = false).
  { destruct (Qle_bool 10 delta) eqn:F; [| reflexivity].
    apply Qle_bool_iff in F. lra. }
  rewrite F10.
  split; [exists tp, i; split; [exact Et |]; split; [exact Ei | lra] |].
  split.
  - destruct (Qle_bool (-10) delta); discriminate.
  - exists l. split; [exact El |]. split; intros B.
    + assert (Qle_bool (-10) delta = true) as ->;
        [apply Qle_bool_iff; lra | reflexivity].
    + destruct (Qle_bool (-10) delta) eqn:F; [| reflexivity].
      apply Qle_bool_iff in F. lra.
Qed.

(** X9. When every page of the total is completed, nothing is left, the
    percentage is 100, the needed pace is 0 and the status is never
    [behind]. *)
Theorem all_completed st :
  let t := trackTotals st in
  tt_completed t =n= totalPages st ->
  tt_left t =n= Fin 0 /\ tt_pct t =n= Fin 100
  /\ tt_neededPerDay t =n= Fin 0 /\ tt_status t <> behind.
Proof.
  intros t.
  destruct (trackTotals_values st)
    as (tp & d & k & c & l & dl & n & r & p & i & delta
        & (Bt & Bd & Bk & Bc) & (Et & Ed & Ek & Ec) & (El & Rl & Bl)
        & (Edl & Bdl & _) & (En & Rn) & (Ep & Rr & Rp)
        & (Ei & Ri & Bi) & (Rd & Es)).
  fold t in Ec, El, En, Ep, Es. rewrite Ec, Et, El, En, Ep, Es.
  simpl. intros E.
  pose proof (ideal_at_most_total tp d k) as I.
  assert (L0 : l == 0).
  { rewrite (rounds_to_whole l (tp - c) 0 Rl); rewrite E; ring. }
  assert (R1 : r == 1).
  { rewrite (rounds_to_whole r (c / tp) 1 Rr); rewrite E; field; lra. }
  assert (P100 : p == 100).
  { rewrite (rounds_to_whole p (r * 100) 100 Rp); rewrite R1; reflexivity. }
  assert (N0 : n == 0).
  { rewrite (rounds_to_whole n (l / dl) 0 Rn); rewrite L0; field; lra. }
  split; [exact L0 |]. split; [exact P100 |]. split; [exact N0 |].
  destruct Rd as (Rd & _). unfold eps in *.
  assert (Qle_bool (-10) delta = true) as ->
    by (apply Qle_bool_iff; lra).
  destruct (Qle_bool 10 delta); discriminate.
Qed.

(** X10. In [onPage] mode [updateProgress] never stores more than 603
    pages, whatever the page entered and whatever the goal: with a goal
    of several completions the stored progress stays below one
    completion. *)
Theorem onPage_at_most_603 now st ls :
  trackMode st = onPage ->
  exists p, pagesCompleted (progress (updateProgress now st ls).1) = Fin p
    /\ 0 <= p <= 603.
Proof.
  intros M.
  change (pagesCompleted (progress (updateProgress now st ls).1))
    with (updateProgress_pagesCompleted st).
  unfold updateProgress_pagesCompleted, QURAN_PAGES. rewrite M.
  destruct (clamp_range (Number (VNum (inputPage st))) 1 604)
    as (q & -> & Bq); [lra |].
  destruct (totalPages_range st) as (g & t & _ & Bg & -> & Bt & _).
  destruct (sub_small q 1) as (x & -> & Rx); [unfold small; lra |].
  int_bounds Rx 0%Z 603%Z.
  destruct (strict_eq_num (activeGoal st) (Fin 1)).
  - exists x. split; [reflexivity | lra].
  - pose proof (clamp_inside x 0 t) as C.
    destruct (clamp_range (Fin x) 0 t) as (p & Ep & Bp); [lra |].
    rewrite Ep in *. exists p. split; [reflexivity |].
    simpl in C. lra.
Qed.

(** X11. Whatever the plan inputs hold, [planResults] is made of finite
    numbers: a goal [g] of [1, 50], a day count [d] of [1, 60], a total
    of [604 * g] pages (exactly so for a whole [g]), and a daily target
    that covers the total in [d] days to within [60 * 2 ^ -33] of a page.
    With one of the four session presets, the sessions of a day make up
    the daily target to within [5 * 2 ^ -33] of a page. *)
Theorem planResults_always_defined st :
  let p := planResults st in
  exists g d total perDay,
    pr_g p = Fin g /\ pr_d p = Fin d /\ pr_total p = Fin total
    /\ pr_perDay p = Fin perDay
    /\ 1 <= g <= 50 /\ 1 <= d <= 60 /\ 604 <= total <= 30200
    /\ pr_total p = totalPages st
    /\ - eps <= total - 604 * g <= eps
    /\ (forall z : Z, g == inject_Z z -> total == 604 * g)
    /\ 0 <= perDay <= 30200
    /\ - (60 * eps) <= perDay * d - total <= 60 * eps
    /\ (forall s, sessions st = SessionsPreset_value s ->
        exists perSession n,
          pr_perSession p = Fin perSession /\ Number (sessions st) = Fin n
          /\ 0 <= perSession <= 30200
          /\ - (5 * eps) <= perSession * n - perDay <= 5 * eps).
Proof.
  intros p.
  assert (Eg : pr_g p = clamp (Number (effectiveGoal st)) (Fin 1) (Fin 50))
    by reflexivity.
  assert (Ed : pr_d p = clamp (Number (effectiveDays st)) (Fin 1) (Fin 60))
    by reflexivity.
  assert (Ett : pr_total p = totalPages st) by reflexivity.
  assert (Ep : pr_perDay p = (pr_total p / pr_d p)%num) by reflexivity.
  assert (Es : pr_perSession p = (pr_perDay p / Number (sessions st))%num)
    by reflexivity.
  destruct (totalPages_range st) as (g & total & Cg & Bg & Et & Bt & Rt).
  destruct (clamp_range (Number (effectiveDays st)) 1 60) as (d & Cd & Bd);
    [lra |].
  rewrite Cg in Eg. rewrite Cd in Ed. rewrite Et in Ett.
  pose proof (div_bounds total d) as Bq.
  destruct (div_small total d) as (perDay & Ediv & Rp); [lra | unfold small; lra |].
  int_bounds Rp 0%Z 30200%Z.
  assert (Bp : 0 <= perDay <= 30200) by lra.
  assert (Ep' : pr_perDay p = Fin perDay) by (now rewrite Ep, Ett, Ed).
  assert (D : perDay * d - total == (perDay - total / d) * d) by (field; lra).
  exists g, d, total, perDay.
  split; [exact Eg |]. split; [exact Ed |]. split; [exact Ett |].
  split; [exact Ep' |]. split; [exact Bg |]. split; [exact Bd |].
  split; [exact Bt |]. split; [now rewrite Ett |].
  split; [apply Rt |].
  split.
  { intros z Ez. apply (rounds_to_whole total (604 * g) (604 * z) Rt).
    rewrite inject_Z_mult, Ez. reflexivity. }
  split; [exact Bp |].
  split.
  { destruct Rp as (Rp & _). rewrite D. unfold eps in *. split; nra. }
  intros s S. rewrite Es, Ep', S.
  assert (Sn : exists n, Number (SessionsPreset_value s) = Fin n /\ 1 <= n <= 5).
  { destruct s; simpl; eexists; (split; [reflexivity | lra]). }
  destruct Sn as (n & -> & Bn).
  pose proof (div_bounds perDay n) as Bs.
  destruct (div_small perDay n) as (perSession & -> & Rs);
    [lra | unfold small; lra |].
  int_bounds Rs 0%Z 30200%Z.
  exists perSession, n.
  split; [reflexivity |]. split; [reflexivity |]. split; [lra |].
  assert (D' : perSession * n - perDay == (perSession - perDay / n) * n)
    by (field; lra).
  destruct Rs as (Rs & _). rewrite D'. unfold eps in *. split; nra.
Qed.

End Calculators.

(** X8, on day 30 of the default plan of 30 days. *)
Lemma status_on_last_day_default :
  let st := demo [SetRamadanDay (Fin 30)] in
  let t := @trackTotals silent_host st in
  (exists tp i, @totalPages silent_host st = Fin tp
     /\ tt_idealCompletedByNow t = Fin i
     /\ - (61 * eps) <= i - tp <= 61 * eps)
  /\ tt_status t <> ontrack
  /\ exists l, tt_left t = Fin l
       /\ (l <= 9999 # 1000 -> tt_status t = slight)
       /\ (10001 # 1000 <= l -> tt_status t = behind).
Proof.
  apply (@status_on_last_day silent_host (demo [SetRamadanDay (Fin 30)])).
  vm_compute. reflexivity.
Defined.

(** X9, with the 604 pages of one completion reported as read. *)
Lemma all_completed_604 :
  let t := @trackTotals silent_host (two_days_with 604) in
  tt_left t =n= Fin 0 /\ tt_pct t =n= Fin 100
  /\ tt_neededPerDay t =n= Fin 0 /\ tt_status t <> behind.
Proof.
  apply (@all_completed silent_host (two_days_with 604)).
  vm_compute. reflexivity.
Defined.

(** X10, with the page 9999 entered under a saved goal of 3. *)
Lemma onPage_at_most_603_goal_3 :
  exists p,
    pagesCompleted
      (progress
         (@updateProgress silent_host (Fin 0)
            (demo [SetGoalPreset goal_3; SavePlan; SetInputPage (Fin 9999)])
            ∅).1)
    = Fin p /\ 0 <= p <= 603.
Proof.
  apply (@onPage_at_most_603 silent_host (Fin 0)
           (demo [SetGoalPreset goal_3; SavePlan; SetInputPage (Fin 9999)]) ∅).
  reflexivity.
Defined.

(** ** Handlers, storage and reloading *)

Section Reloading.
Context `{!Host}.
Import JS.

(** [clamp] does not tell apart two representations of one number. *)
Lemma clamp_num_eq a b lo hi :
  a =n= b -> clamp a (Fin lo) (Fin hi) =n= clamp b (Fin lo) (Fin hi).
Proof.
  destruct a as [| |x|], b as [| |y|]; simpl; try contradiction;
    intros E; try apply num_eq_refl.
  all: unfold clamp; simpl; qcases; simpl; qcases; simpl; lra.
Qed.

Lemma num_eq_trans a b c : a =n= b -> b =n= c -> a =n= c.
Proof.
  destruct a, b, c; simpl; try contradiction; auto.
  intros -> ->. reflexivity.
Qed.

Lemma fmap_pointwise {A B} (f g : A -> B) (l : list A) :
  (forall x, f x = g x) -> f <$> l = g <$> l.
Proof.
  intros E. induction l as [|x l IH]; csimpl; [reflexivity |].
  now rewrite E, IH.
Qed.

(** X12. The history is a window on the last 10 updates: after a series
    of updates (with nothing else in between) on a history of at most 10
    entries, it holds the entries of these updates, newest first, in front
    of the older ones, cut after 10. The entries differ by their time
    only. *)
Theorem history_window st ls nows :
  (length (history st) <= 10)%nat ->
  history (run (st, ls) (UpdateProgress <$> nows)).1
  = take 10
      (rev ((fun now => HistoryItem_value (updateProgress_newItem now st))
            <$> nows)
       ++ history st).
Proof.
  revert st ls. induction nows as [|now nows IH]; intros st ls L.
  - simpl. symmetry. now apply firstn_all2.
  - cbn [fmap list_fmap run foldl].
    change (foldl step (step (st, ls) (UpdateProgress now)) (UpdateProgress <$> nows))
      with (run (updateProgress now st ls) (UpdateProgress <$> nows)).
    destruct (updateProgress now st ls) as [st1 ls1] eqn:U.
    assert (H1 : history st1
                 = take 10 (HistoryItem_value (updateProgress_newItem now st)
                            :: history st))
      by (injection U as <- _; reflexivity).
    assert (N : forall t, updateProgress_newItem t st1 = updateProgress_newItem t st)
      by (intros t; injection U as <- _; reflexivity).
    rewrite IH by (rewrite H1, length_take; lia).
    rewrite H1. simpl rev.
    rewrite (fmap_pointwise _ (fun t => HistoryItem_value (updateProgress_newItem t st)))
      by (intros t; now rewrite N).
    set (items := rev _). set (x := HistoryItem_value _).
    rewrite <- app_assoc. simpl.
    destruct (Nat.le_gt_cases 10 (length items)) as [G | G].
    + rewrite !take_app_le by lia. reflexivity.
    + rewrite !take_app_ge by lia. f_equal.
      destruct (10 - length items)%nat as [|m] eqn:M; [lia |].
      simpl. f_equal. rewrite take_take. f_equal. lia.
Qed.

(** Lookups of the literal keys in a storage built by writes and
    removals. *)
Ltac storage_lookups :=
  repeat first
    [ rewrite lookup_insert_eq
    | rewrite lookup_delete_eq
    | rewrite lookup_insert_ne by done
    | rewrite lookup_delete_ne by done ].

(** Every event keeps the storage in step with the state. *)
Lemma step_persisted w e : persisted w -> persisted (step w e).
Proof.
  destruct w as [st ls]. unfold persisted, getItem. cbn [fst snd].
  intros (P1 & P2 & P3 & P4).
  destruct e; cbn [step fst snd];
    unfold savePlan, resetAll, updateProgress, setRamadanDayPersist,
      persistTheme, setItem, removeItem;
    cbn [fst snd plan progress history ramadanDay setTheme setTab
         setGoalPreset setCustomGoal setDaysPreset setCustomDays setSessions
         setPlan setPlanSavedToast setTrackMode setInputPage
         setInputReadPages setRamadanDay setProgress setHistory];
    storage_lookups; repeat split; auto.
Qed.

Lemma run_persisted es : forall w, persisted w -> persisted (run w es).
Proof.
  induction es as [|e es IH]; intros w P; simpl; [assumption |].
  apply IH. now apply step_persisted.
Qed.

(** X13. From a reset, and from a first start over an empty storage,
    every run of events keeps the storage in step with the state: the keys
    [plan], [progress], [history] and [ramadanDay] hold the texts written
    for the current plan, progress, history and day, and a key is absent
    only while its field has its initial value. *)
Theorem storage_mirrors_state st ls es :
  persisted (run (resetAll st ls) es)
  /\ persisted (run (initial_state, ∅) es).
Proof.
  split; apply run_persisted.
  - unfold persisted, resetAll, getItem, removeItem. cbn [fst snd].
    storage_lookups. repeat split; auto.
  - unfold persisted, getItem. cbn [fst snd].
    rewrite !lookup_empty. repeat split; auto.
Qed.

(** X14. No event but the reset removes a key from the storage. *)
Theorem only_resetAll_removes st ls e k :
  e <> ResetAll -> is_Some (getItem ls k) ->
  is_Some (getItem (step (st, ls) e).2 k).
Proof.
  intros N S. unfold getItem in *.
  destruct e; cbn [step snd]; try assumption; try congruence;
    unfold savePlan, updateProgress, setRamadanDayPersist, persistTheme,
      setItem;
    cbn [snd];
    repeat match goal with
    | |- is_Some (<[?i := _]> _ !! k) =>
        destruct (decide (i = k)) as [<- | ?];
        [rewrite lookup_insert_eq; eauto | rewrite lookup_insert_ne by done]
    end;
    assumption.
Qed.

(** *** What mounting restores *)

(** The three loaders that follow the plan write the progress, the
    history and the day only. *)
Lemma load_tail ls st st1 :
  load_plan ls (load_theme ls st) = Ok st1 ->
  exists p l r,
    load ls st = Ok (setRamadanDay r (setHistory l (setProgress p st1))).
Proof.
  intros E1. unfold load. rewrite E1. simpl.
  destruct (load_progress_cases ls st1) as (st2 & -> & C2). simpl.
  destruct (load_history_cases ls st2) as (st3 & -> & C3). simpl.
  assert (S2 : st2 = setProgress (progress st2) st1).
  { destruct C2 as [-> | (p & ->)]; destruct st1; reflexivity. }
  assert (S3 : st3 = setHistory (history st3) st2).
  { destruct C3 as [-> | (l & ->)]; destruct st2; reflexivity. }
  assert (S4 : load_ramadanDay ls st3
               = setRamadanDay (ramadanDay (load_ramadanDay ls st3)) st3).
  { destruct (load_ramadanDay_cases ls st3) as [-> | (r & ->)];
      destruct st3; reflexivity. }
  exists (progress st2), (history st3), (ramadanDay (load_ramadanDay ls st3)).
  rewrite <- S2, <- S3. f_equal. exact S4.
Qed.

(** The plan is adopted only when its three fields are truthy. *)
Lemma load_plan_adopts ls st :
  exists st1, load_plan ls st = Ok st1
    /\ (st1 = st
        \/ exists gk dt sp,
             truthy gk = true /\ truthy dt = true /\ truthy sp = true
             /\ st1 = load_adopt_plan gk dt sp st).
Proof.
  unfold load_plan.
  destruct (safeJsonParse_total (getItem ls LS_KEYS.plan)) as (v & ->). simpl.
  destruct (truthy v) eqn:T; [| eauto].
  destruct (get_prop_truthy v "goalKhatmah" T) as (gk & ->). simpl.
  destruct (truthy gk) eqn:Tg; [| eauto].
  destruct (get_prop_truthy v "daysTotal" T) as (dt & ->). simpl.
  destruct (truthy dt) eqn:Td; [| eauto].
  destruct (get_prop_truthy v "sessionsPerDay" T) as (sp & ->). simpl.
  destruct (truthy sp) eqn:Ts; [| eauto].
  eexists. split; [reflexivity |]. right.
  exists gk, dt, sp. split; [exact Tg |]. split; [exact Td |].
  split; [exact Ts | reflexivity].
Qed.

Lemma goal_preset_of_number gk g :
  goal_preset_of gk = Some g ->
  exists q, gk = VNum (Fin q)
    /\ q == match g with
            | goal_1 => 1 | goal_2 => 2 | goal_3 => 3 | goal_custom => q
            end
    /\ g <> goal_custom.
Proof.
  unfold goal_preset_of.
  destruct gk as [| | |[| |q|]| | |]; simpl; try discriminate.
  qcases; intros [= <-]; exists q; repeat split; try assumption; discriminate.
Qed.

Lemma days_preset_of_number dt d :
  days_preset_of dt = Some d ->
  exists q, dt = VNum (Fin q)
    /\ q == match d with days_30 => 30 | days_29 => 29 | days_custom => q end
    /\ d <> days_custom.
Proof.
  unfold days_preset_of.
  destruct dt as [| | |[| |q|]| | |]; simpl; try discriminate.
  qcases; intros [= <-]; exists q; repeat split; try assumption; discriminate.
Qed.

(** After a stored plan is adopted the plan inputs show the same plan. *)
Lemma load_adopt_plan_inputs gk dt sp st :
  let st1 := load_adopt_plan gk dt sp st in
  plan st1 = Some {| goalKhatmah := gk; daysTotal := dt; sessionsPerDay := sp |}
  /\ Number (effectiveGoal st1) =n= Number gk
  /\ Number (effectiveDays st1) =n= Number dt
  /\ sessions st1 = sp.
Proof.
  unfold load_adopt_plan.
  destruct (goal_preset_of gk) as [g|] eqn:G;
    destruct (days_preset_of dt) as [d|] eqn:D;
    cbn; repeat split; try apply num_eq_refl.
  all: try (apply goal_preset_of_number in G as (q & -> & E & N);
            unfold effectiveGoal; cbn; destruct g; cbn; try congruence;
            now symmetry).
  all: try (apply days_preset_of_number in D as (q & -> & E & N);
            unfold effectiveDays; cbn; destruct d; cbn; try congruence;
            now symmetry).
Qed.

Lemma restored_ok_initial : restored_ok initial_state.
Proof.
  split; [simpl; lia | split].
  - right. exists 1. split; [reflexivity | lra].
  - intros p E. discriminate E.
Qed.

Lemma restored_ok_load_plan ls st :
  restored_ok st ->
  exists st1, load_plan ls st = Ok st1 /\ restored_ok st1.
Proof.
  intros (Ih & Id & Ip).
  destruct (load_plan_adopts ls st) as (st1 & E & C).
  exists st1. split; [exact E |].
  destruct C as [-> | (gk & dt & sp & Tg & Td & Ts & ->)];
    [exact (conj Ih (conj Id Ip)) |].
  pose proof (load_adopt_plan_inputs gk dt sp st) as (Pp & Pg & Pd & Ps).
  split; [| split].
  - now rewrite load_adopt_plan_history.
  - now rewrite load_adopt_plan_ramadanDay.
  - intros p E'. rewrite Pp in E'. injection E' as <-. cbn.
    repeat split; assumption.
Qed.

Lemma restored_ok_load_progress ls st :
  restored_ok st ->
  exists st1, load_progress ls st = Ok st1 /\ restored_ok st1.
Proof.
  intros I. destruct (load_progress_cases ls st) as (st1 & E & C).
  exists st1. split; [exact E |].
  destruct C as [-> | (p & ->)]; [assumption | exact I].
Qed.

Lemma restored_ok_load_history ls st :
  restored_ok st ->
  exists st1, load_history ls st = Ok st1 /\ restored_ok st1.
Proof.
  intros I. destruct (load_history_cases ls st) as (st1 & E & C).
  exists st1. split; [exact E |].
  pose proof (load_history_length _ _ _ E) as L.
  destruct I as (Ih & Id & Ip).
  split; [lia |].
  destruct C as [-> | (l & ->)]; split; assumption.
Qed.

Lemma restored_ok_load_ramadanDay ls st :
  restored_ok st -> restored_ok (load_ramadanDay ls st).
Proof.
  intros (Ih & Id & Ip). unfold load_ramadanDay.
  destruct (Number (of_nullable (getItem ls LS_KEYS.ramadanDay)))
    as [| |r|]; cbn; try exact (conj Ih (conj Id Ip)).
  - unfold Num.gtb. cbn. qcases; cbn; try exact (conj Ih (conj Id Ip)).
    split; [exact Ih | split; [| exact Ip]].
    right. exists r. split; [reflexivity | lra].
  - split; [exact Ih | split; [now left | exact Ip]].
Qed.

(** X15. Whatever the storage holds, mounting leaves a history of at
    most 30 entries and a day cursor that is a positive number or
    [+Infinity], never [NaN], zero or negative. A plan is restored only
    with its three fields truthy (a goal or a day count of 0 is refused),
    and the plan inputs then show the restored plan: the live goal, day
    count and sessions are those of the plan. *)
Theorem mount_restores_consistently ls :
  exists st' ls', mount ls = Ok (st', ls') /\ restored_ok st'.
Proof.
  unfold mount, load.
  assert (I0 : restored_ok (load_theme ls initial_state)).
  { pose proof restored_ok_initial as I.
    destruct (load_theme_cases ls initial_state) as [-> | (t & ->)]; exact I. }
  destruct (restored_ok_load_plan ls _ I0) as (st1 & -> & I1). simpl.
  destruct (restored_ok_load_progress ls _ I1) as (st2 & -> & I2). simpl.
  destruct (restored_ok_load_history ls _ I2) as (st3 & -> & I3). simpl.
  eexists _, _. split; [reflexivity |].
  now apply restored_ok_load_ramadanDay.
Qed.

(** X16. Mounting over the storage that a reset leaves gives the initial
    state again, with the stored theme: [dark] when the text stored for
    the theme is [dark], and [light], the initial theme, for any other
    text and for none. The reset leaves the theme key as it is, and the
    mount writes the theme back. A reset is not undone by a reload. *)
Theorem mount_after_resetAll st ls :
  let ls1 := (resetAll st ls).2 in
  getItem ls1 LS_KEYS.theme = getItem ls LS_KEYS.theme
  /\ exists th,
       mount ls1 = Ok (setTheme th initial_state,
                       setItem LS_KEYS.theme (Theme_string th) ls1)
       /\ (getItem ls LS_KEYS.theme = Some "dark"%string -> th = dark)
       /\ (getItem ls LS_KEYS.theme <> Some "dark"%string -> th = light).
Proof.
  intros ls1.
  assert (K : forall k, k = LS_KEYS.plan \/ k = LS_KEYS.progress
                        \/ k = LS_KEYS.history \/ k = LS_KEYS.ramadanDay ->
                        getItem ls1 k = None).
  { intros k. unfold ls1, getItem, resetAll, removeItem. cbn [snd].
    intros [-> | [-> | [-> | ->]]]; storage_lookups; reflexivity. }
  assert (T : getItem ls1 LS_KEYS.theme = getItem ls LS_KEYS.theme).
  { unfold ls1, getItem, resetAll, removeItem. cbn [snd].
    storage_lookups. reflexivity. }
  split; [exact T |].
  clearbody ls1.
  unfold mount, load.
  rewrite load_plan_unreadable by (left; apply K; tauto).
  cbn [mbind result_bind].
  rewrite load_progress_unreadable by (left; apply K; tauto).
  cbn [mbind result_bind].
  rewrite load_history_unreadable by (left; apply K; tauto).
  cbn [mbind result_bind mret result_ret].
  rewrite load_ramadanDay_default by (left; apply K; tauto).
  unfold persistTheme, load_theme. rewrite T.
  destruct (getItem ls LS_KEYS.theme) as [s|]; cbn [of_nullable coalesce nullish strict_eq_str].
  - destruct (String.eqb_spec s "light") as [-> | NL].
    + exists light. split; [reflexivity |]. split; [discriminate | reflexivity].
    + destruct (String.eqb_spec s "dark") as [-> | ND].
      * exists dark. split; [reflexivity |]. split; [reflexivity | congruence].
      * exists light. split; [reflexivity |].
        split; [intros E; congruence | reflexivity].
  - exists light. split; [reflexivity |]. split; [discriminate | reflexivity].
Qed.

(** *** What is saved is restored *)

Lemma truthy_at_least_one q : 1 <= q -> truthy (VNum (Fin q)) = true.
Proof.
  intros L. simpl. destruct (Qeq_bool q 0) eqn:E; [| reflexivity].
  apply Qeq_bool_iff in E. lra.
Qed.

(** X17. A saved plan comes back: when the host reads back the text it
    wrote for the plan, mounting over the storage left by [savePlan]
    restores the saved plan, and the plan inputs show its goal, its day
    count and its sessions. (The sessions value must be truthy, as the
    four presets are.) *)
Theorem saved_plan_is_restored st ls :
  let w := savePlan st ls in
  truthy (sessions st) = true ->
  (forall p, plan w.1 = Some p -> reads_back (Plan_value p)) ->
  exists st' ls',
    mount w.2 = Ok (st', ls')
    /\ plan st' = plan w.1
    /\ pr_g (planResults st') =n= pr_g (planResults st)
    /\ pr_d (planResults st') =n= pr_d (planResults st)
    /\ sessions st' = sessions st
    /\ daysTotalFromPlan st' = daysTotalFromPlan w.1
    /\ activeGoal st' = activeGoal w.1.
Proof.
  intros w Ts R.
  destruct (clamp_range (Number (effectiveGoal st)) 1 50) as (g & Eg & Bg);
    [lra |].
  destruct (clamp_range (Number (effectiveDays st)) 1 60) as (d & Ed & Bd);
    [lra |].
  set (p := {| goalKhatmah := VNum (Fin g); daysTotal := VNum (Fin d);
               sessionsPerDay := sessions st |}).
  assert (Pw : plan w.1 = Some p).
  { unfold w, savePlan. cbn [fst plan setPlan setPlanSavedToast].
    now rewrite Eg, Ed. }
  assert (Gw : getItem w.2 LS_KEYS.plan = Some (JSON_stringify (Plan_value p))).
  { unfold w, savePlan, getItem, setItem. cbn [snd].
    rewrite lookup_insert_eq. now rewrite Eg, Ed. }
  destruct (R p Pw) as (Rn & Rp).
  set (st0 := load_theme w.2 initial_state).
  assert (E1 : load_plan w.2 st0
               = Ok (load_adopt_plan (VNum (Fin g)) (VNum (Fin d)) (sessions st) st0)).
  { unfold load_plan, safeJsonParse. rewrite Gw. cbn [of_nullable truthy].
    destruct (String.eqb_spec (JSON_stringify (Plan_value p)) EmptyString)
      as [Z | _]; [contradiction |].
    cbn [negb]. rewrite Rp. cbn.
    pose proof (truthy_at_least_one g (proj1 Bg)) as Zg.
    pose proof (truthy_at_least_one d (proj1 Bd)) as Zd.
    cbn in Zg, Zd. rewrite Zg. cbn. rewrite Zd. cbn. now rewrite Ts. }
  destruct (load_tail w.2 initial_state _ E1) as (p' & l & r & EL).
  unfold mount. rewrite EL. cbn [mbind result_bind mret result_ret].
  eexists _, _. split; [reflexivity |].
  pose proof (load_adopt_plan_inputs (VNum (Fin g)) (VNum (Fin d)) (sessions st) st0)
    as (Ip & Ig & Id & Is).
  set (st1 := load_adopt_plan _ _ _ st0) in *.
  change (plan (setRamadanDay r (setHistory l (setProgress p' st1))))
    with (plan st1).
  change (sessions (setRamadanDay r (setHistory l (setProgress p' st1))))
    with (sessions st1).
  change (pr_g (planResults (setRamadanDay r (setHistory l (setProgress p' st1)))))
    with (clamp (Number (effectiveGoal st1)) (Fin 1) (Fin 50)).
  change (pr_d (planResults (setRamadanDay r (setHistory l (setProgress p' st1)))))
    with (clamp (Number (effectiveDays st1)) (Fin 1) (Fin 60)).
  change (pr_g (planResults st)) with (clamp (Number (effectiveGoal st)) (Fin 1) (Fin 50)).
  change (pr_d (planResults st)) with (clamp (Number (effectiveDays st)) (Fin 1) (Fin 60)).
  change (daysTotalFromPlan (setRamadanDay r (setHistory l (setProgress p' st1))))
    with (daysTotalFromPlan st1).
  change (activeGoal (setRamadanDay r (setHistory l (setProgress p' st1))))
    with (activeGoal st1).
  rewrite Eg, Ed.
  repeat split.
  - now rewrite Ip, Pw.
  - eapply num_eq_trans; [apply clamp_num_eq, Ig |]. apply clamp_inside, Bg.
  - eapply num_eq_trans; [apply clamp_num_eq, Id |]. apply clamp_inside, Bd.
  - unfold daysTotalFromPlan. now rewrite Ip, Pw.
  - unfold activeGoal. now rewrite Ip, Pw.
Qed.

(** X18. A stored update comes back: when the host reads back the texts
    it wrote for the progress and for the history, mounting over the
    storage left by [updateProgress] restores both as they were. *)
Theorem progress_is_restored now st ls :
  let w := updateProgress now st ls in
  reads_back (ProgressState_value (progress w.1)) ->
  reads_back (VArr (history w.1)) ->
  exists st' ls',
    mount w.2 = Ok (st', ls')
    /\ progress st' = progress w.1 /\ history st' = history w.1.
Proof.
  intros w (Pn & Pp) (Hn & Hp).
  assert (Gp : getItem w.2 LS_KEYS.progress
               = Some (JSON_stringify (ProgressState_value (progress w.1)))).
  { unfold w, updateProgress, getItem, setItem. cbn [snd].
    now storage_lookups. }
  assert (Gh : getItem w.2 LS_KEYS.history
               = Some (JSON_stringify (VArr (history w.1)))).
  { unfold w, updateProgress, getItem, setItem. cbn [snd].
    now storage_lookups. }
  assert (Lh : (length (history w.1) <= 10)%nat).
  { unfold w, updateProgress. cbn [fst history setHistory].
    rewrite length_take. lia. }
  set (h := history w.1) in *. clearbody h.
  unfold mount, load.
  destruct (load_plan_cases w.2 (load_theme w.2 initial_state))
    as (st1 & -> & _).
  cbn [mbind result_bind].
  assert (E2 : load_progress w.2 st1 = Ok (setProgress (progress w.1) st1)).
  { unfold load_progress, safeJsonParse. rewrite Gp. cbn [of_nullable truthy].
    destruct (String.eqb_spec
                (JSON_stringify (ProgressState_value (progress w.1))) EmptyString)
      as [Z | _]; [contradiction |].
    cbn [negb]. rewrite Pp. reflexivity. }
  rewrite E2. cbn [mbind result_bind].
  assert (E3 : load_history w.2 (setProgress (progress w.1) st1)
               = Ok (setHistory h (setProgress (progress w.1) st1))).
  { unfold load_history, safeJsonParse. rewrite Gh. cbn [of_nullable truthy].
    destruct (String.eqb_spec (JSON_stringify (VArr h)) EmptyString)
      as [Z | _]; [contradiction |].
    cbn [negb]. rewrite Hp. cbn [try_catch mbind result_bind mret result_ret].
    now rewrite take_ge by lia. }
  rewrite E3. cbn [mbind result_bind mret result_ret].
  eexists _, _. split; [reflexivity |].
  destruct (load_ramadanDay_cases w.2
              (setHistory h (setProgress (progress w.1) st1)))
    as [-> | (r & ->)]; split; reflexivity.
Qed.

(** X19. A stored day comes back: when the text written for the day
    converts back to it, mounting over the storage left by
    [setRamadanDayPersist] restores the day (the active day total being a
    number not below 1). *)
Theorem day_is_restored n st ls (d : Q) :
  let w := setRamadanDayPersist n st ls in
  Number (daysTotalFromPlan st) = Fin d -> 1 <= d ->
  StringToNumber (NumberToString (ramadanDay w.1)) = ramadanDay w.1 ->
  exists st' ls',
    mount w.2 = Ok (st', ls') /\ ramadanDay st' = ramadanDay w.1.
Proof.
  intros w E L R.
  destruct (clamp_range n 1 d L) as (k & Ek & Bk).
  assert (Dw : ramadanDay w.1 = Fin k).
  { unfold w, setRamadanDayPersist. cbn [fst]. rewrite E.
    change (ramadanDay (setRamadanDay ?v st)) with v. exact Ek. }
  assert (Gw : getItem w.2 LS_KEYS.ramadanDay
               = Some (NumberToString (ramadanDay w.1))).
  { unfold w, setRamadanDayPersist, getItem, setItem. cbn [snd].
    now rewrite lookup_insert_eq. }
  rewrite Dw in *.
  destruct (load_ramadanDay_as_stored w.2 initial_state _ k Gw R)
    as (st' & EL & Er); [lra |].
  unfold mount. rewrite EL. cbn [mbind result_bind mret result_ret].
  eexists _, _. split; [reflexivity | exact Er].
Qed.

(** *** Saving a plan *)

(** X20. [savePlan] always saves a goal of [1, 50] and a day count of
    [1, 60], whatever the inputs hold. After it, the Track screen uses
    the saved day count, and editing the day inputs changes nothing of
    [trackTotals]. *)
Theorem savePlan_fixes_the_days st ls dp n :
  let w := savePlan st ls in
  let edited := (run w [SetDaysPreset dp; SetCustomDays n]).1 in
  exists g d,
    plan w.1 = Some {| goalKhatmah := VNum (Fin g); daysTotal := VNum (Fin d);
                       sessionsPerDay := sessions st |}
    /\ 1 <= g <= 50 /\ 1 <= d <= 60
    /\ tt_dTotal (trackTotals w.1) =n= Fin d
    /\ trackTotals edited = trackTotals w.1.
Proof.
  intros w edited.
  destruct (clamp_range (Number (effectiveGoal st)) 1 50) as (g & Eg & Bg);
    [lra |].
  destruct (clamp_range (Number (effectiveDays st)) 1 60) as (d & Ed & Bd);
    [lra |].
  exists g, d.
  assert (Pw : plan w.1 = Some {| goalKhatmah := VNum (Fin g);
                                  daysTotal := VNum (Fin d);
                                  sessionsPerDay := sessions st |}).
  { unfold w, savePlan. cbn [fst plan setPlan setPlanSavedToast].
    now rewrite Eg, Ed. }
  repeat split; try assumption; try apply Bg; try apply Bd.
  - change (tt_dTotal (trackTotals w.1))
      with (clamp (Number (daysTotalFromPlan w.1)) (Fin 1) (Fin 60)).
    unfold daysTotalFromPlan. rewrite Pw. cbn. now apply clamp_inside.
Qed.

(** X21. Saving the plan twice in a row is the same as saving it once,
    for the state and for the storage. *)
Theorem savePlan_twice w :
  step (step w SavePlan) SavePlan = step w SavePlan.
Proof.
  destruct w as [st ls]. cbn [step].
  destruct (savePlan st ls) as [st1 ls1] eqn:E. cbn [step].
  injection E as <- <-. unfold savePlan, setItem.
  f_equal. apply insert_insert_eq.
Qed.

(** The difference and the sum of two finite numbers do not depend on
    how the rationals are written. *)
Lemma sub_fin_proper x x' y y' :
  x == x' -> y == y' -> (Fin x - Fin y)%num = (Fin x' - Fin y')%num.
Proof. intros Ex Ey. simpl. apply round_proper. now rewrite Ex, Ey. Qed.

Lemma add_fin_proper x x' y y' :
  x == x' -> y == y' -> (Fin x + Fin y)%num = (Fin x' + Fin y')%num.
Proof. intros Ex Ey. simpl. apply round_proper. now rewrite Ex, Ey. Qed.

(** [daysLeft] for a whole day total and a whole day. *)
Lemma daysLeft_whole (d k : Q) (a b : Z) :
  1 <= d <= 60 -> 1 <= k <= d -> d == inject_Z a -> k == inject_Z b ->
  Num.max (Fin 0) (Fin d - Fin k + Fin 1)%num =n= Fin (d - k + 1).
Proof.
  intros Bd Bk Ea Eb.
  destruct (sub_small d k) as (x & -> & Rx); [unfold small; lra |].
  assert (Wx : x == d - k).
  { apply (rounds_to_whole x (d - k) (a - b) Rx).
    change (a - b)%Z with (a + - b)%Z.
    rewrite inject_Z_plus, inject_Z_opp, Ea, Eb. reflexivity. }
  destruct (add_small x 1) as (dl & -> & Rd); [unfold small; lra |].
  assert (Wd : dl == x + 1).
  { apply (rounds_to_whole dl (x + 1) (a - b + 1) Rd).
    rewrite Wx, inject_Z_plus. change (a - b)%Z with (a + - b)%Z.
    rewrite inject_Z_plus, inject_Z_opp, Ea, Eb. reflexivity. }
  simpl.
  assert (Qle_bool 0 dl = true) as -> by (apply Qle_bool_iff; lra).
  simpl. lra.
Qed.

(** X22. The day that [setRamadanDayPersist] stores is the day the
    tracking uses: when the active day total is a number [d] of [1, 60]
    and [k] is the stored day, the [dayNow] of [trackTotals] is [k] and
    [daysLeft] is [d - k + 1] as the code computes it, a number of
    [1, 60], which counts from the stored day to the day total when both
    are whole numbers. *)
Theorem stored_day_is_tracked n st ls (d : Q) :
  let st' := (setRamadanDayPersist n st ls).1 in
  Number (daysTotalFromPlan st) = Fin d -> 1 <= d <= 60 ->
  exists k,
    ramadanDay st' = Fin k /\ 1 <= k <= d
    /\ tt_dayNow (trackTotals st') =n= Fin k
    /\ tt_daysLeft (trackTotals st')
       = Num.max (Fin 0) (Fin d - Fin k + Fin 1)%num
    /\ (exists dl, tt_daysLeft (trackTotals st') = Fin dl /\ 1 <= dl <= 60)
    /\ (forall a b : Z, d == inject_Z a -> k == inject_Z b ->
        tt_daysLeft (trackTotals st') =n= Fin (d - k + 1)).
Proof.
  intros st' E B.
  destruct (clamp_range n 1 d (proj1 B)) as (k & Ek & Bk).
  assert (Dw : ramadanDay st' = Fin k).
  { unfold st', setRamadanDayPersist. cbn [fst]. rewrite E.
    change (ramadanDay (setRamadanDay ?v st)) with v. exact Ek. }
  exists k. split; [exact Dw |]. split; [exact Bk |].
  assert (T : clamp (Number (daysTotalFromPlan st')) (Fin 1) (Fin 60) =n= Fin d).
  { change (daysTotalFromPlan st') with (daysTotalFromPlan st).
    rewrite E. now apply clamp_inside. }
  destruct (trackTotals_inputs st')
    as (tp & d' & k' & c & _ & _ & Ed' & Bd' & Ek' & Bk' & _).
  change (tt_dTotal (trackTotals st'))
    with (clamp (Number (daysTotalFromPlan st')) (Fin 1) (Fin 60)) in Ed'.
  assert (Ed'' : tt_dTotal (trackTotals st') = Fin d') by exact Ed'.
  rewrite Ed' in T. simpl in T.
  assert (K : Fin k' =n= Fin k).
  { rewrite <- Ek'.
    change (tt_dayNow (trackTotals st'))
      with (clamp (Number (VNum (ramadanDay st')))
              (Fin 1) (clamp (Number (daysTotalFromPlan st')) (Fin 1) (Fin 60))).
    rewrite Ed', Dw. apply clamp_inside. lra. }
  simpl in K.
  assert (L : tt_daysLeft (trackTotals st')
              = Num.max (Fin 0) (Fin d - Fin k + Fin 1)%num).
  { change (tt_daysLeft (trackTotals st'))
      with (Num.max (Fin 0)
              (tt_dTotal (trackTotals st') - tt_dayNow (trackTotals st')
               + Fin 1)%num).
    rewrite Ed'', Ek'. now rewrite (sub_fin_proper d' d k' k). }
  split; [rewrite Ek'; exact K |].
  split; [exact L |].
  rewrite L.
  split.
  - destruct (daysLeft_value d k B Bk) as (dl & -> & Bdl & _).
    exists dl. split; [reflexivity | exact Bdl].
  - intros a b Ea Eb. now apply (daysLeft_whole d k a b).
Qed.

End Reloading.

(** X12, for two updates of a fresh component. *)
Lemma history_window_two_updates :
  history (@run silent_host (initial_state, ∅)
             (UpdateProgress <$> [Fin 1; Fin 2])).1
  = take 10
      (rev ((fun now =>
               HistoryItem_value
                 (@updateProgress_newItem silent_host now initial_state))
            <$> [Fin 1; Fin 2])
       ++ history initial_state).
Proof.
  apply (@history_window silent_host initial_state ∅ [Fin 1; Fin 2]).
  simpl. lia.
Defined.

(** X14, for a stored plan and the event that saves another one. *)
Lemma only_resetAll_removes_plan :
  is_Some
    (getItem
       (@step silent_host (initial_state, {[LS_KEYS.plan := "x"%string]})
          SavePlan).2
       LS_KEYS.plan).
Proof.
  apply (@only_resetAll_removes silent_host initial_state
           {[LS_KEYS.plan := "x"%string]} SavePlan LS_KEYS.plan).
  - discriminate.
  - exists "x"%string. apply lookup_singleton_eq.
Defined.

(** X17, for the default plan. *)
Lemma saved_plan_is_restored_default :
  exists st' ls',
    @mount plan_host (@savePlan plan_host initial_state ∅).2 = Ok (st', ls')
    /\ plan st' = plan (@savePlan plan_host initial_state ∅).1
    /\ pr_g (@planResults plan_host st')
       =n= pr_g (@planResults plan_host initial_state)
    /\ pr_d (@planResults plan_host st')
       =n= pr_d (@planResults plan_host initial_state)
    /\ sessions st' = sessions initial_state
    /\ @daysTotalFromPlan plan_host st'
       = @daysTotalFromPlan plan_host (@savePlan plan_host initial_state ∅).1
    /\ @activeGoal plan_host st'
       = @activeGoal plan_host (@savePlan plan_host initial_state ∅).1.
Proof.
  apply (@saved_plan_is_restored plan_host initial_state ∅).
  - reflexivity.
  - intros p E. vm_compute in E. injection E as <-.
    split; [discriminate | reflexivity].
Defined.

(** X18, for the first update of a fresh component. *)
Lemma progress_is_restored_first_update :
  exists st' ls',
    @mount update_host (@updateProgress update_host (Fin 5) initial_state ∅).2
    = Ok (st', ls')
    /\ progress st'
       = progress (@updateProgress update_host (Fin 5) initial_state ∅).1
    /\ history st'
       = history (@updateProgress update_host (Fin 5) initial_state ∅).1.
Proof.
  apply (@progress_is_restored update_host (Fin 5) initial_state ∅).
  - split; [discriminate | reflexivity].
  - split; [discriminate | reflexivity].
Defined.

(** X19, for the day 45 entered under the default plan of 30 days. *)
Lemma day_is_restored_30 :
  exists st' ls',
    @mount day_host (@setRamadanDayPersist day_host (Fin 45) initial_state ∅).2
    = Ok (st', ls')
    /\ ramadanDay st'
       = ramadanDay (@setRamadanDayPersist day_host (Fin 45) initial_state ∅).1.
Proof.
  apply (@day_is_restored day_host (Fin 45) initial_state ∅ 30).
  - reflexivity.
  - lra.
  - reflexivity.
Defined.

(** X22, for the day 12 entered under the default plan of 30 days: 19
    days are left. *)
Lemma stored_day_is_tracked_12 :
  let st' := (@setRamadanDayPersist silent_host (Fin 12) initial_state ∅).1 in
  ramadanDay st' = Fin 12
  /\ tt_dayNow (@trackTotals silent_host st') = Fin 12
  /\ tt_daysLeft (@trackTotals silent_host st') =n= Fin 19.
Proof.
  intros st'.
  destruct (@stored_day_is_tracked silent_host (Fin 12) initial_state ∅ 30)
    as (k & Ek & _ & _ & _ & _ & W); [reflexivity | lra |].
  fold st' in Ek, W.
  split; [reflexivity |]. split; [reflexivity |].
  assert (K : k = 12) by (injection Ek as <-; reflexivity).
  subst k. apply (W 30%Z 12%Z); reflexivity.
Defined.
